(** * Capacity-exhaustion forecasting (src/feature2/feature2.py)

    A shallow embedding of the forecasting core of feature2.py:
    the threshold solver, the model selector, the confidence and priority
    classifiers, the deduplication-trend classifier, gap interpolation and
    outlier removal.

    Numbers.  Python floats are modelled by exact rationals [Q]; day indices
    and day counts are Python ints, modelled by [Z]; lengths are [nat].
    The numerical primitives that the source takes from numpy / scipy and
    that have no rational counterpart ([np.sqrt], [scipy.stats.t.sf],
    [np.polyfit]) are Section variables: every theorem holds for any
    implementation of them, and where a theorem needs the defining property
    of the square root it assumes it only at the number it is applied to. *)

From Stdlib Require Import String DecimalString.
From Stdlib Require Import QArith Qabs Qround Qfield ZArith List Bool Lia Lqa.
Import ListNotations.

Local Open Scope Q_scope.

(** ** Numeric helpers *)

(** Strict comparison of floats, [x < y], as a boolean. *)
Definition Qltb (x y : Q) : bool := negb (Qle_bool y x).

(** Python's [int(q)] on a float: truncation toward zero. *)
Definition py_int (q : Q) : Z := Z.quot (Qnum q) (Z.pos (Qden q)).

(** [np.polyval([a, b, c], x)] = a*x^2 + b*x + c. *)
Definition polyval (coeffs : Q * Q * Q) (x : Q) : Q :=
  let '(a, b, c) := coeffs in a * x * x + b * x + c.

(** Python's [min] over a non-empty list, given as head and tail: the first
    minimal element is kept. *)
Fixpoint py_min (cur : Q) (rest : list Q) : Q :=
  match rest with
  | [] => cur
  | x :: rest' => py_min (if Qltb x cur then x else cur) rest'
  end.

(** The literal [1e-6] of solve_for_threshold. *)
Definition EPS : Q := 1 # 1000000.

(** ** PolynomialForecaster.solve_for_threshold *)

Section Solver.

(** [np.sqrt]. *)
Variable sqrt : Q -> Q.

Definition discriminant (a b c_adj : Q) : Q := b ^ 2 - 4 * a * c_adj.

Definition root1 (a b c_adj : Q) : Q :=
  (- b + sqrt (discriminant a b c_adj)) / (2 * a).

Definition root2 (a b c_adj : Q) : Q :=
  (- b - sqrt (discriminant a b c_adj)) / (2 * a).

(** [[x for x in solutions if x > current_day]] *)
Definition valid_solutions (a b c_adj : Q) (current_day : Z) : list Q :=
  filter (fun x => Qltb (inject_Z current_day) x)
         [root1 a b c_adj; root2 a b c_adj].

(** [int(days_from_now) if days_from_now > 0 else None] *)
Definition days_result (days_from_now : Q) : option Z :=
  if Qltb 0 days_from_now then Some (py_int days_from_now) else None.

Definition solve_for_threshold
           (coeffs : Q * Q * Q) (threshold : Q) (current_day : Z) : option Z :=
  let '(a, b, c) := coeffs in
  let c_adj := c - threshold in
  if Qltb (Qabs a) EPS then
    (* linear model *)
    if Qltb (Qabs b) EPS then None
    else
      let x := - c_adj / b in
      if Qltb b 0 then None
      else days_result (x - inject_Z current_day)
  else
    (* quadratic model *)
    if Qltb (discriminant a b c_adj) 0 then None
    else
      match valid_solutions a b c_adj current_day with
      | [] => None
      | v :: vs => days_result (py_min v vs - inject_Z current_day)
      end.

End Solver.

(** ** Configuration constants

    The module-level constants of feature2.py, read from config.yaml. *)

Record Config := {
  MIN_DAYS : nat;
  MAX_GAP_DAYS : nat;
  OUTLIER_THRESHOLD : Q;
  R_SQUARED_HIGH : Q;
  R_SQUARED_MODERATE : Q;
  DEDUP_IMPROVING_THRESHOLD : Q;
  DEDUP_DEGRADING_THRESHOLD : Q;
  DEDUP_IMPROVING_ADJUSTMENT : Q;
  DEDUP_DEGRADING_ADJUSTMENT : Q;
  P_VALUE_THRESHOLD : Q;
  URGENT_THRESHOLD_DAYS : Z;
  HIGH_THRESHOLD_DAYS : Z;
  MEDIUM_THRESHOLD_DAYS : Z
}.

(** Modelled from the spec: config.yaml is not among the sources.  The
    values of max_gap_days, outlier_threshold, r_squared_high,
    r_squared_moderate, p_value_threshold and of the three priority
    thresholds are the defaults the specification states.  The specification
    gives no value for min_days or for the four deduplication constants; it
    only asks for an improving adjustment below 1 and a degrading one above
    1, and the values here are samples that respect this. *)
Definition default_config : Config := {|
  MIN_DAYS := 14;
  MAX_GAP_DAYS := 2;
  OUTLIER_THRESHOLD := 3;
  R_SQUARED_HIGH := 85 # 100;
  R_SQUARED_MODERATE := 70 # 100;
  DEDUP_IMPROVING_THRESHOLD := 1 # 10;
  DEDUP_DEGRADING_THRESHOLD := - (1 # 10);
  DEDUP_IMPROVING_ADJUSTMENT := 9 # 10;
  DEDUP_DEGRADING_ADJUSTMENT := 11 # 10;
  P_VALUE_THRESHOLD := 5 # 100;
  URGENT_THRESHOLD_DAYS := 15;
  HIGH_THRESHOLD_DAYS := 30;
  MEDIUM_THRESHOLD_DAYS := 60
|}.

(** ** Array helpers (numpy) *)

Definition Qsum (l : list Q) : Q := fold_right Qplus 0 l.

(** [np.mean] *)
Definition mean (l : list Q) : Q := Qsum l / inject_Z (Z.of_nat (length l)).

(** Boolean-mask indexing [data[mask]]. *)
Definition mask_select {A : Type} (data : list A) (mask : list bool) : list A :=
  map fst (filter snd (combine data mask)).

(** [np.sum] of a boolean array. *)
Definition count_true (mask : list bool) : nat :=
  length (filter (fun b => b) mask).

(** ** DataPreprocessor.remove_outliers and the re-alignment of x *)

Section Outliers.

Variable sqrt : Q -> Q.

(** [np.std]: population standard deviation. *)
Definition std (l : list Q) : Q :=
  sqrt (mean (map (fun v => (v - mean l) ^ 2) l)).

(** [np.abs(data - mean) > threshold * std] *)
Definition outliers_mask (data : list Q) (threshold : Q) : list bool :=
  map (fun v => Qltb (threshold * std data) (Qabs (v - mean data))) data.

Definition remove_outliers (data : list Q) (threshold : Q) : list Q * nat :=
  if (length data <? 3)%nat then (data, 0%nat)
  else
    if Qeq_bool (std data) 0 then (data, 0%nat)
    else
      let outliers := outliers_mask data threshold in
      let outlier_count := count_true outliers in
      if (0 <? outlier_count)%nat
      then (mask_select data (map negb outliers), outlier_count)
      else (data, 0%nat).

(** [np.abs(y - np.mean(y)) <= OUTLIER_THRESHOLD * np.std(y)], the mask
    that analyze_repository computes to re-align x. *)
Definition keep_mask (y : list Q) (threshold : Q) : list bool :=
  map (fun v => Qle_bool (Qabs (v - mean y)) (threshold * std y)) y.

(** analyze_repository, "Remove outliers": returns the new (x, y) and the
    count of removed outliers. *)
Definition realign_outliers (cfg : Config) (x : list Z) (y : list Q)
  : list Z * list Q * nat :=
  let '(y_clean, outliers_removed) := remove_outliers y (OUTLIER_THRESHOLD cfg) in
  if (0 <? outliers_removed)%nat then
    let outlier_mask := keep_mask y (OUTLIER_THRESHOLD cfg) in
    (mask_select x outlier_mask, y_clean, outliers_removed)
  else (x, y, outliers_removed).

End Outliers.

(** ** DedupAnalyzer.analyze_dedup_trend *)

Definition analyze_dedup_trend (cfg : Config) (dedup_ratios : list Q) : string * Q :=
  if (length dedup_ratios <? 10)%nat then ("UNKNOWN"%string, 1)
  else
    let mid := (length dedup_ratios / 2)%nat in
    let first_half := firstn mid dedup_ratios in
    let second_half := skipn mid dedup_ratios in
    let first_avg := mean first_half in
    let second_avg := mean second_half in
    let diff := second_avg - first_avg in
    if Qltb (DEDUP_IMPROVING_THRESHOLD cfg) diff
    then ("IMPROVING"%string, DEDUP_IMPROVING_ADJUSTMENT cfg)
    else if Qltb diff (DEDUP_DEGRADING_THRESHOLD cfg)
    then ("DEGRADING"%string, DEDUP_DEGRADING_ADJUSTMENT cfg)
    else ("STABLE"%string, 1).

(** ** DataPreprocessor.interpolate_gaps

    The function works on the capacity_gb column of the frame re-indexed on
    the daily calendar grid ([df.resample('D').asfreq()]): one cell per day,
    [None] for a day without a value (NaN).  The re-indexing itself (sort,
    to_datetime, set_index, resample) is not modelled: [df_daily] below is
    the column it produces.  For rows dated at midnight that column holds
    each row's value on its day and NaN on every day without a row; what it
    holds for rows with a time of day is decided by pandas' re-indexing and
    lies outside this model. *)

Definition Series := list (option Q).

Definition isna (cell : option Q) : bool :=
  match cell with None => true | Some _ => false end.

(** [series.isna().sum()] *)
Definition isna_sum (s : Series) : Z := Z.of_nat (length (filter isna s)).

(** For each day, the nearest earlier day that has a value, as
    (distance in days, value); [last] is the one known before the head. *)
Fixpoint nearest_before (last : option (nat * Q)) (s : Series)
  : list (option (nat * Q)) :=
  match s with
  | [] => []
  | Some v :: s' => Some (0%nat, v) :: nearest_before (Some (1%nat, v)) s'
  | None :: s' =>
      last :: nearest_before (option_map (fun p => (S (fst p), snd p)) last) s'
  end.

Definition nearest_after (s : Series) : list (option (nat * Q)) :=
  rev (nearest_before None (rev s)).

(** One cell of pandas' [interpolate(method='linear', limit=limit,
    limit_direction='both')].  A NaN is filled when it is at most [limit]
    days after the previous value or at most [limit] days before the next
    one; the filled value is the one of [np.interp] over the positions:
    linear between the two neighbouring values, and the single neighbouring
    value before the first or after the last value. *)
Definition fill_cell (limit : nat) (cell : option Q)
           (before after : option (nat * Q)) : option Q :=
  match cell with
  | Some v => Some v
  | None =>
      match before, after with
      | Some (db, vb), Some (da, va) =>
          if ((db <=? limit) || (da <=? limit))%nat
          then Some (vb + (va - vb) / inject_Z (Z.of_nat (db + da))
                          * inject_Z (Z.of_nat db))
          else None
      | Some (db, vb), None => if (db <=? limit)%nat then Some vb else None
      | None, Some (da, va) => if (da <=? limit)%nat then Some va else None
      | None, None => None
      end
  end.

Fixpoint fill_cells (limit : nat) (s : Series)
         (before after : list (option (nat * Q))) : Series :=
  match s, before, after with
  | cell :: s', b :: before', a :: after' =>
      fill_cell limit cell b a :: fill_cells limit s' before' after'
  | _, _, _ => []
  end.

Definition interpolate_linear_both (limit : nat) (s : Series) : Series :=
  fill_cells limit s (nearest_before None s) (nearest_after s).

(** interpolate_gaps on the daily column.  The result is the interpolated
    column and the count of interpolated days; [None] stands for the
    ValueError that pandas raises for a limit below 1. *)
Definition interpolate_gaps (df_daily : Series) (max_gap_days : nat)
  : option (Series * Z) :=
  match df_daily with
  | [] => Some ([], 0%Z)
  | _ =>
      if (max_gap_days =? 0)%nat then None
      else
        let gaps_before := isna_sum df_daily in
        let capacity_gb := interpolate_linear_both max_gap_days df_daily in
        let gaps_after := isna_sum capacity_gb in
        let interpolated_count := (gaps_before - gaps_after)%Z in
        Some (capacity_gb, interpolated_count)
  end.

(** [df.dropna(subset=['capacity_gb'])] followed by the day index
    [(date - date.min()).dt.days]: the days that still have a value. *)
Fixpoint dropna_from (day : Z) (s : Series) : list (Z * Q) :=
  match s with
  | [] => []
  | Some v :: s' => (day, v) :: dropna_from (day + 1) s'
  | None :: s' => dropna_from (day + 1) s'
  end.

Definition dropna (s : Series) : list (Z * Q) := dropna_from 0 s.

(** ** PolynomialForecaster.fit_model *)

Definition Vec3 := (Q * Q * Q)%type.
Definition Mat3 := (Vec3 * Vec3 * Vec3)%type.

(** A row of [X = np.column_stack([x**2, x, np.ones_like(x)])]. *)
Definition design_row (xi : Q) : Vec3 := (xi ^ 2, xi, 1).

Definition design_matrix (x : list Q) : list Vec3 := map design_row x.

Definition outer (r : Vec3) : Mat3 :=
  let '(p, q, s) := r in
  ((p * p, p * q, p * s), (q * p, q * q, q * s), (s * p, s * q, s * s)).

Definition vec_add (u v : Vec3) : Vec3 :=
  let '(u0, u1, u2) := u in
  let '(v0, v1, v2) := v in (u0 + v0, u1 + v1, u2 + v2).

Definition mat_add (m n : Mat3) : Mat3 :=
  let '(m0, m1, m2) := m in
  let '(n0, n1, n2) := n in (vec_add m0 n0, vec_add m1 n1, vec_add m2 n2).

Definition mat_zero : Mat3 := ((0, 0, 0), (0, 0, 0), (0, 0, 0)).

(** [X.T @ X], the sum of the outer products of the rows of X. *)
Definition XtX (X : list Vec3) : Mat3 :=
  fold_right (fun r m => mat_add (outer r) m) mat_zero X.

Definition det3 (m : Mat3) : Q :=
  let '((a, b, c), (d, e, f), (g, h, i)) := m in
  a * (e * i - f * h) - b * (d * i - f * g) + c * (d * h - e * g).

(** [np.linalg.inv] on a 3x3 matrix; [None] stands for the LinAlgError
    raised on a singular matrix. *)
Definition inv (m : Mat3) : option Mat3 :=
  let '((a, b, c), (d, e, f), (g, h, i)) := m in
  let dt := det3 m in
  if Qeq_bool dt 0 then None
  else Some (((e * i - f * h) / dt, (c * h - b * i) / dt, (b * f - c * e) / dt),
             ((f * g - d * i) / dt, (a * i - c * g) / dt, (c * d - a * f) / dt),
             ((d * h - e * g) / dt, (b * g - a * h) / dt, (a * e - b * d) / dt)).

(** [m[0, 0]] *)
Definition entry00 (m : Mat3) : Q := let '((a, _, _), _, _) := m in a.

Record FitResult := {
  coeffs : Vec3;
  model_type : string;
  r_squared : Q;
  p_value : Q;
  mse : Q
}.

Section Fitter.

(** [np.sqrt] *)
Variable sqrt : Q -> Q.
(** [scipy.stats.t.sf(t, df)] *)
Variable t_sf : Q -> Z -> Q.
(** [np.polyfit(x, y, deg=1)] and [np.polyfit(x, y, deg=2)], highest
    degree first; [None] stands for an exception (numpy raises on an
    empty x). *)
Variable polyfit1 : list Q -> list Q -> option (Q * Q).
Variable polyfit2 : list Q -> list Q -> option Vec3.

Variable cfg : Config.

(** [np.sum((y - np.polyval(coeffs, x))**2)] *)
Definition sum_sq_residuals (cs : Vec3) (x y : list Q) : Q :=
  Qsum (map (fun p => (snd p - polyval cs (fst p)) ^ 2) (combine x y)).

(** The residual mean squared error of the quadratic fit. *)
Definition quad_mse (coeffs_quad : Vec3) (x y : list Q) : Q :=
  sum_sq_residuals coeffs_quad x y
  / inject_Z (Z.of_nat (length x) - 3).

(** The standard error of the quadratic coefficient, when [X.T @ X] has
    an inverse. *)
Definition quad_se_a (coeffs_quad : Vec3) (x y : list Q) : option Q :=
  match inv (XtX (design_matrix x)) with
  | Some XtX_inv => Some (sqrt (quad_mse coeffs_quad x y * entry00 XtX_inv))
  | None => None
  end.

(** The try / except block of fit_model: the p-value of the quadratic
    coefficient, 1.0 when the inverse does not exist or se_a is not
    positive. *)
Definition quad_p_value (coeffs_quad : Vec3) (x y : list Q) : Q :=
  let n := Z.of_nat (length x) in
  let a := fst (fst coeffs_quad) in
  match quad_se_a coeffs_quad x y with
  | Some se_a =>
      if Qltb 0 se_a then
        let t_stat := Qabs (a / se_a) in
        2 * t_sf t_stat (n - 3)
      else 1
  | None => 1
  end.

Definition fit_model (x y : list Q) : option FitResult :=
  match polyfit1 x y, polyfit2 x y with
  | Some coeffs_linear, Some coeffs_quad =>
      let mse := quad_mse coeffs_quad x y in
      let p_value := quad_p_value coeffs_quad x y in
      let '(model_type, coeffs) :=
        if Qltb p_value (P_VALUE_THRESHOLD cfg)
        then ("QUADRATIC"%string, coeffs_quad)
        else ("LINEAR"%string, (0, fst coeffs_linear, snd coeffs_linear)) in
      let ss_res := sum_sq_residuals coeffs x y in
      let ss_tot := Qsum (map (fun v => (v - mean y) ^ 2) y) in
      let r_squared := if Qltb 0 ss_tot then 1 - ss_res / ss_tot else 0 in
      Some {| coeffs := coeffs; model_type := model_type;
              r_squared := r_squared; p_value := p_value; mse := mse |}
  | _, _ => None
  end.

End Fitter.

(** ** CapacityOrchestrator.analyze_repository: the derived fields *)

(** Truth value of an [Optional[int]] in a Python condition: [None] and [0]
    are false. *)
Definition truthy (days : option Z) : bool :=
  match days with
  | Some k => negb (k =? 0)%Z
  | None => false
  end.

(** [days and days < limit] *)
Definition days_below (days : option Z) (limit : Z) : bool :=
  match days with
  | Some k => truthy days && (k <? limit)%Z
  | None => false
  end.

(** "Determine growth pattern" *)
Definition classify_growth (model_type : string) (growth_rate acceleration : Q)
  : string :=
  if Qltb growth_rate (- (1)) then "DECLINING"%string
  else if Qltb (Qabs growth_rate) 1 then "STABLE"%string
  else if String.eqb model_type "QUADRATIC" && Qltb (1 # 10) acceleration
       then "QUADRATIC"%string
       else "LINEAR"%string.

(** "Confidence classification": the level and the multiplier. *)
Definition classify_confidence (cfg : Config) (r_squared : Q) (n : nat)
  : string * Q :=
  if Qle_bool (R_SQUARED_HIGH cfg) r_squared && (21 <=? n)%nat
  then ("HIGH"%string, 1)
  else if Qle_bool (R_SQUARED_MODERATE cfg) r_squared && (MIN_DAYS cfg <=? n)%nat
       then ("MODERATE"%string, 8 # 10)
       else ("LOW"%string, 5 # 10).

(** "Priority classification" *)
Definition classify_priority (cfg : Config) (days_to_80 : option Z) : string :=
  if days_below days_to_80 (URGENT_THRESHOLD_DAYS cfg) then "URGENT"%string
  else if days_below days_to_80 (HIGH_THRESHOLD_DAYS cfg) then "HIGH"%string
  else if days_below days_to_80 (MEDIUM_THRESHOLD_DAYS cfg) then "MEDIUM"%string
  else "LOW"%string.

(** [str] of a Python int. *)
Definition str_int (k : Z) : string := NilZero.string_of_int (Z.to_int k).

(** [{days_to_80}] inside an f-string ([None] cannot occur where it is
    used: the guard [days_below] has passed). *)
Definition str_days (days : option Z) : string :=
  match days with
  | Some k => str_int k
  | None => "None"%string
  end.

(** [int(days * factor) if days else None] *)
Definition ci_bound (days : option Z) (factor : Q) : option Z :=
  match days with
  | Some k => if truthy days then Some (py_int (inject_Z k * factor)) else None
  | None => None
  end.

Record Forecast := {
  days_to_80 : option Z;
  days_to_90 : option Z;
  days_to_100 : option Z;
  days_to_80_ci : option Z * option Z;
  days_to_100_ci : option Z * option Z;
  growth_rate : Q;
  acceleration : Q;
  growth_pattern : string;
  confidence_level : string;
  confidence_multiplier : Q;
  dedup_adjustment_applied : bool;
  priority : string;
  recommendation : string;
  recommended_capacity_gb : option Q
}.

Section Orchestrator.

(** [np.sqrt] *)
Variable sqrt : Q -> Q.
(** The float format [:.1f] of an f-string. *)
Variable format_1f : Q -> string.

Variable cfg : Config.

(** "Generate recommendation" *)
Definition generate_recommendation
           (growth_pattern : string) (growth_rate : Q) (days_to_80 : option Z)
  : string :=
  if String.eqb growth_pattern "DECLINING" then
    ("Capacity declining at " ++ format_1f (Qabs growth_rate)
       ++ " GB/day. Monitor for stabilization.")%string
  else if days_below days_to_80 (URGENT_THRESHOLD_DAYS cfg) then
    ("URGENT: " ++ str_days days_to_80
       ++ " days to 80% capacity. Order storage immediately.")%string
  else if days_below days_to_80 (HIGH_THRESHOLD_DAYS cfg) then
    ("HIGH: " ++ str_days days_to_80
       ++ " days to 80% capacity. Order storage within 2 weeks.")%string
  else if days_below days_to_80 (MEDIUM_THRESHOLD_DAYS cfg) then
    ("MEDIUM: " ++ str_days days_to_80
       ++ " days to 80% capacity. Plan expansion within 30 days.")%string
  else
    ("LOW: " ++ (if truthy days_to_80 then str_days days_to_80 else "N/A")
       ++ " days to 80% capacity. Monitor quarterly.")%string.

(** analyze_repository from "Apply deduplication adjustment to
    coefficients" to the recommended capacity: the fields of the forecast
    that are derived from the fitted model, the dedup adjustment, the
    sample count [n = len(x)], the current day [x[-1]] and the total
    capacity. *)
Definition assemble_forecast
           (model : FitResult) (dedup_adjustment : Q) (n : nat)
           (current_day : Z) (total_capacity_gb : Q) : Forecast :=
  let '(a0, b0, c0) := coeffs model in
  let '(coeffs, dedup_adjustment_applied) :=
    if negb (Qeq_bool dedup_adjustment 1)
    then ((a0 * dedup_adjustment, b0 * dedup_adjustment, c0), true)
    else ((a0, b0, c0), false) in
  let threshold_80 := total_capacity_gb * (80 # 100) in
  let threshold_90 := total_capacity_gb * (90 # 100) in
  let threshold_100 := total_capacity_gb * 1 in
  let days_to_80 := solve_for_threshold sqrt coeffs threshold_80 current_day in
  let days_to_90 := solve_for_threshold sqrt coeffs threshold_90 current_day in
  let days_to_100 := solve_for_threshold sqrt coeffs threshold_100 current_day in
  let days_to_80_ci :=
    (ci_bound days_to_80 (9 # 10), ci_bound days_to_80 (11 # 10)) in
  let days_to_100_ci :=
    (ci_bound days_to_100 (9 # 10), ci_bound days_to_100 (11 # 10)) in
  let growth_rate := snd (fst coeffs) in
  let acceleration := fst (fst coeffs) in
  let growth_pattern :=
    classify_growth (model_type model) growth_rate acceleration in
  let '(confidence_level, confidence_multiplier) :=
    classify_confidence cfg (r_squared model) n in
  let priority := classify_priority cfg days_to_80 in
  let recommendation :=
    generate_recommendation growth_pattern growth_rate days_to_80 in
  let recommended_capacity_gb :=
    if truthy days_to_100
    then Some (total_capacity_gb + growth_rate * 180 * (12 # 10))
    else None in
  {| days_to_80 := days_to_80; days_to_90 := days_to_90;
     days_to_100 := days_to_100;
     days_to_80_ci := days_to_80_ci; days_to_100_ci := days_to_100_ci;
     growth_rate := growth_rate; acceleration := acceleration;
     growth_pattern := growth_pattern;
     confidence_level := confidence_level;
     confidence_multiplier := confidence_multiplier;
     dedup_adjustment_applied := dedup_adjustment_applied;
     priority := priority; recommendation := recommendation;
     recommended_capacity_gb := recommended_capacity_gb |}.

End Orchestrator.

(** ** Instances of the numerical primitives, for running the model

    [sqrt_floor] is the exact square root on squares of rationals (it rounds
    the numerator and the denominator of the reduced fraction down
    otherwise).  [format_1f_trunc] prints one decimal, truncated.
    [t_sf_sample] is a sample survival function, decreasing in [t] with
    [t_sf_sample 0 df = 1/2]; it is not the Student distribution. *)

Definition sqrt_floor (q : Q) : Q :=
  let r := Qred q in Z.sqrt (Qnum r) # Pos.sqrt (Qden r).

Definition format_1f_trunc (q : Q) : string :=
  let tenths := py_int (q * 10) in
  (str_int (Z.quot tenths 10) ++ "." ++ str_int (Z.abs (Z.rem tenths 10)))%string.

Definition t_sf_sample (t : Q) (df : Z) : Q := 1 / (2 * (1 + Qabs t)).

(** [np.polyfit] in exact arithmetic.  numpy builds the Vandermonde matrix,
    divides each column by its Euclidean norm, solves the least-squares
    problem by SVD (minimum-norm solution when the rank is deficient) and
    divides the solution by the column norms.  So:
    - an empty x, or x and y of different lengths, raise TypeError;
    - an x of zeros gives a column of norm 0, hence NaN, and LinAlgError;
    - on a design of full rank the result is the least-squares solution,
      here by the normal equations;
    - on a rank-deficient design it is the least-squares solution that
      minimises sum_j w_j * beta_j^2, with w_j the squared norm of column j.
    [None] stands for the exception. *)

Definition polyfit1_lstsq (x y : list Q) : option (Q * Q) :=
  match x with
  | [] => None
  | x0 :: _ =>
      if negb (length x =? length y)%nat then None
      else
        let n := inject_Z (Z.of_nat (length x)) in
        let sx := Qsum x in
        let sy := Qsum y in
        let sxx := Qsum (map (fun v => v * v) x) in
        let sxy := Qsum (map (fun p => fst p * snd p) (combine x y)) in
        let den := n * sxx - sx * sx in
        if Qeq_bool sxx 0 then None
        else if Qeq_bool den 0 then
          (* every x equals x0: slope * x0 + intercept = mean y *)
          Some (Qred (mean y / (2 * x0)), Qred (mean y / 2))
        else
          let slope := (n * sxy - sx * sy) / den in
          Some (Qred slope, Qred ((sy - slope * sx) / n))
  end.

Definition vec_scale (k : Q) (v : Vec3) : Vec3 :=
  let '(v0, v1, v2) := v in (k * v0, k * v1, k * v2).

Definition dot3 (u v : Vec3) : Q :=
  let '(u0, u1, u2) := u in
  let '(v0, v1, v2) := v in u0 * v0 + u1 * v1 + u2 * v2.

(** [X.T @ y] *)
Definition Xty (X : list Vec3) (y : list Q) : Vec3 :=
  fold_right (fun p acc => vec_add (vec_scale (snd p) (fst p)) acc)
             (0, 0, 0) (combine X y).

(** The product sum_j w_j * u_j * v_j of the weighted norm. *)
Definition wdot3 (w u v : Vec3) : Q :=
  let '(w0, w1, w2) := w in
  let '(u0, u1, u2) := u in
  let '(v0, v1, v2) := v in w0 * u0 * v0 + w1 * u1 * v1 + w2 * u2 * v2.

Definition polyfit2_lstsq (x y : list Q) : option Vec3 :=
  match polyfit1_lstsq x y with
  | None => None
  | Some (slope, intercept) =>
      match inv (XtX (design_matrix x)) with
      | Some (m0, m1, m2) =>
          let v := Xty (design_matrix x) y in
          Some (Qred (dot3 m0 v), Qred (dot3 m1 v), Qred (dot3 m2 v))
      | None =>
          match x with
          | [] => None
          | p :: _ =>
              match find (fun v => negb (Qeq_bool v p)) x with
              | None =>
                  (* one value p: a p^2 + b p + c = mean y *)
                  Some (Qred (mean y / (3 * (p * p))),
                        Qred (mean y / (3 * p)),
                        Qred (mean y / 3))
              | Some q =>
                  (* two values p, q: the line of degree 1 plus a multiple
                     of (x - p)(x - q) *)
                  let n := inject_Z (Z.of_nat (length x)) in
                  let w := (Qsum (map (fun v => v ^ 2 * v ^ 2) x),
                            Qsum (map (fun v => v * v) x), n) in
                  let z := (1, - (p + q), p * q) in
                  let line := (0, slope, intercept) in
                  let t := - wdot3 w z line / wdot3 w z z in
                  Some (Qred t, Qred (slope - t * (p + q)),
                        Qred (intercept + t * (p * q)))
              end
          end
      end
  end.

(** ** Capacity snapshot (analyze_repository, save_current_measurement) *)

(** analyze_repository, "Current state":
    [(current_used_gb / total_capacity_gb * 100) if total_capacity_gb > 0 else 0] *)
Definition current_utilization_pct (total_capacity_gb current_used_gb : Q) : Q :=
  if Qltb 0 total_capacity_gb
  then current_used_gb / total_capacity_gb * 100
  else 0.

(** The keys of a repository state that save_current_measurement reads;
    [None] is an absent key. *)
Record RepoState := {
  capacityGB : option Q;
  usedSpaceGB : option Q;
  freeGB : option Q
}.

(** [repo.get(key, 0)] *)
Definition get_or_zero (v : option Q) : Q :=
  match v with Some q => q | None => 0 end.

(** [int(gb * (1024**3))] *)
Definition gb_to_bytes (gb : Q) : Z := py_int (gb * inject_Z (1024 ^ 3)).

(** The values that save_current_measurement binds to the INSERT:
    total, used and free bytes and the utilization percentage. *)
Definition measurement_row (repo : RepoState) : Z * Z * Z * Q :=
  let total_capacity_bytes := gb_to_bytes (get_or_zero (capacityGB repo)) in
  let used_space_bytes := gb_to_bytes (get_or_zero (usedSpaceGB repo)) in
  let free_space_bytes := gb_to_bytes (get_or_zero (freeGB repo)) in
  (total_capacity_bytes, used_space_bytes, free_space_bytes,
   if (0 <? total_capacity_bytes)%Z
   then inject_Z used_space_bytes / inject_Z total_capacity_bytes * 100
   else 0).

(** ** Readers of the forecast *)

(** feature5.py, _calculate_risk_scores, "Capacity Risk".  [f2] is the
    forecast row of the repository ([None]: no row), holding its
    days_to_80 ([None]: no crossing predicted). *)
Definition capacity_base_score (f2 : option (option Z)) (t_days : Z) : Z :=
  match f2 with
  | None => 50
  | Some days_to_80 =>
      let days := match days_to_80 with Some k => k | None => 365 end in
      if (days <=? 30)%Z then 100
      else if (days <=? t_days)%Z then 70
      else if (days <=? 120)%Z then 40
      else 10
  end%Z.

(** [(f2.get('days_to_80', 365) or 365) < thresh['capacity_days_threshold']];
    the flag stays False without a forecast row. *)
Definition capacity_exceeds_threshold (f2 : option (option Z)) (t_days : Z)
  : bool :=
  match f2 with
  | None => false
  | Some days_to_80 =>
      ((if truthy days_to_80
        then match days_to_80 with Some k => k | None => 365 end
        else 365) <? t_days)%Z
  end.







(** ** Basic facts about the helpers *)

Lemma Qltb_lt (x y : Q) : Qltb x y = true <-> x < y.
Proof.
  unfold Qltb. rewrite negb_true_iff. split; intro H.
  - apply Qnot_le_lt. intro Hle. apply Qle_bool_iff in Hle. congruence.
  - destruct (Qle_bool y x) eqn:E; [|reflexivity].
    apply Qle_bool_iff in E. exfalso. apply (Qlt_not_le _ _ H E).
Qed.

Lemma Qltb_ge (x y : Q) : Qltb x y = false <-> y <= x.
Proof.
  unfold Qltb. rewrite negb_false_iff. apply Qle_bool_iff.
Qed.

(** Case analysis on a comparison of the code, with the outcome as a
    proposition in the context. *)
Ltac case_Qltb x y E :=
  destruct (Qltb x y) eqn:E; [apply Qltb_lt in E | apply Qltb_ge in E].

Lemma py_int_floor (q : Q) : 0 <= q -> py_int q = Qfloor q.
Proof.
  destruct q as [n d]. unfold py_int, Qfloor, Qle. simpl. intro H.
  apply Z.quot_div_nonneg; lia.
Qed.

Lemma py_min_in (v : Q) (vs : list Q) : In (py_min v vs) (v :: vs).
Proof.
  revert v. induction vs as [|x vs IH]; intro v; simpl.
  - left; reflexivity.
  - destruct (IH (if Qltb x v then x else v)) as [H | H].
    + destruct (Qltb x v); [right; left | left]; exact H.
    + right; right; exact H.
Qed.

Lemma py_min_le_cur (v : Q) (vs : list Q) : py_min v vs <= v.
Proof.
  revert v. induction vs as [|x vs IH]; intro v; simpl.
  - apply Qle_refl.
  - destruct (Qltb x v) eqn:E.
    + apply Qltb_lt in E. apply Qle_trans with x; [apply IH | apply Qlt_le_weak, E].
    + apply IH.
Qed.

Lemma py_min_le (v : Q) (vs : list Q) (r : Q) :
  In r (v :: vs) -> py_min v vs <= r.
Proof.
  revert v. induction vs as [|x vs IH]; intros v Hin.
  - destruct Hin as [<- | []]. apply Qle_refl.
  - simpl. destruct Hin as [<- | [<- | Hin]].
    + eapply Qle_trans; [apply py_min_le_cur|].
      destruct (Qltb x v) eqn:E; [apply Qltb_lt in E; apply Qlt_le_weak, E | apply Qle_refl].
    + eapply Qle_trans; [apply py_min_le_cur|].
      destruct (Qltb x v) eqn:E; [apply Qle_refl | apply Qltb_ge in E; exact E].
    + apply IH. right; exact Hin.
Qed.

(** The model at a root of the quadratic formula misses the threshold by
    the error of the square root [s] of the discriminant, and by nothing
    else. *)
Lemma quadratic_root_residual (a b c T s x : Q) :
  ~ a == 0 ->
  x == (- b + s) / (2 * a) \/ x == (- b - s) / (2 * a) ->
  polyval (a, b, c) x - T
  == (s * s - (b ^ 2 - 4 * a * (c - T))) / (4 * a).
Proof.
  intros Ha Hx. unfold polyval.
  destruct Hx as [Hx | Hx]; rewrite Hx; field; exact Ha.
Qed.

(** A root of the quadratic formula satisfies the equation when the square
    root is exact at the discriminant. *)
Lemma quadratic_root_sound (a b c T s x : Q) :
  ~ a == 0 ->
  s * s == b ^ 2 - 4 * a * (c - T) ->
  x == (- b + s) / (2 * a) \/ x == (- b - s) / (2 * a) ->
  polyval (a, b, c) x == T.
Proof.
  intros Ha Hs Hx. unfold polyval.
  assert (E : a * x * x + b * x + c - T ==
              ((2 * a * x + b) * (2 * a * x + b)
               - (b ^ 2 - 4 * a * (c - T))) / (4 * a))
    by (field; exact Ha).
  assert (Sq : (2 * a * x + b) * (2 * a * x + b) == s * s).
  { destruct Hx as [Hx | Hx]; rewrite Hx; field; exact Ha. }
  rewrite Sq, Hs in E.
  assert (E0 : a * x * x + b * x + c - T == 0) by (rewrite E; field; exact Ha).
  lra.
Qed.

Lemma Qabs_ge_EPS_nonzero (a : Q) : EPS <= Qabs a -> ~ a == 0.
Proof.
  intros H E. rewrite E in H. revert H. apply Qlt_not_le. reflexivity.
Qed.

Lemma py_int_opp (q : Q) : py_int (- q) = (- py_int q)%Z.
Proof.
  destruct q as [n d]. unfold py_int. simpl. apply Z.quot_opp_l. lia.
Qed.

Lemma py_int_comp (q q' : Q) : q == q' -> py_int q = py_int q'.
Proof.
  intro E. destruct (Qlt_le_dec q 0) as [Hneg | Hpos].
  - assert (Hq : 0 <= - q) by lra.
    assert (Hq' : 0 <= - q') by lra.
    assert (E' : - q == - q') by lra.
    pose proof (py_int_opp q) as O. pose proof (py_int_opp q') as O'.
    rewrite (py_int_floor _ Hq) in O. rewrite (py_int_floor _ Hq') in O'.
    rewrite (Qfloor_comp _ _ E') in O. lia.
  - assert (Hq' : 0 <= q') by lra.
    rewrite (py_int_floor _ Hpos), (py_int_floor _ Hq').
    apply Qfloor_comp, E.
Qed.

Lemma days_result_some (q : Q) (k : Z) :
  days_result q = Some k -> 0 < q /\ k = Qfloor q.
Proof.
  unfold days_result. destruct (Qltb 0 q) eqn:E; [|discriminate].
  apply Qltb_lt in E. intro H. injection H as <-. split; [exact E|].
  apply py_int_floor. lra.
Qed.

Lemma days_result_pos (q : Q) : 0 < q -> days_result q = Some (py_int q).
Proof.
  intro H. unfold days_result. apply Qltb_lt in H. rewrite H. reflexivity.
Qed.

Lemma days_result_nonpos (q : Q) : ~ 0 < q -> days_result q = None.
Proof.
  intro H. unfold days_result. destruct (Qltb 0 q) eqn:E; [|reflexivity].
  apply Qltb_lt in E. contradiction.
Qed.

Lemma floor_bracket (x : Q) (d k : Z) :
  k = Qfloor (x - inject_Z d) ->
  inject_Z (d + k) <= x /\ x < inject_Z (d + k + 1).
Proof.
  intros ->. pose proof (Qfloor_le (x - inject_Z d)) as L.
  pose proof (Qlt_floor (x - inject_Z d)) as U.
  rewrite !inject_Z_plus in *. simpl inject_Z in *. split; lra.
Qed.

(** ** The threshold solver *)

Section SolverFacts.

Variable sqrt : Q -> Q.

(** C2, as amended.  Quadratic case, |a| >= 1e-6: with the discriminant
    b^2 - 4a(c - T), the solver returns None when it is negative;
    otherwise the candidates are the two roots of the quadratic formula
    that are strictly greater than the current day; with no candidate the
    solver returns None, and otherwise it returns the smallest candidate
    minus the current day, truncated to an integer.  The positivity test is
    made on that difference before the truncation and always passes here,
    so the day count is never None and is 0 for a root less than one day
    ahead.  At each root of the formula the model misses the threshold by
    (sqrt(disc)^2 - disc) / (4a), the error of the square root, and so
    solves a x^2 + b x + c = T when the square root is exact. *)
Theorem solve_for_threshold_quadratic (a b c T : Q) (d : Z) :
  EPS <= Qabs a ->
  let disc := b ^ 2 - 4 * a * (c - T) in
  let x1 := (- b + sqrt disc) / (2 * a) in
  let x2 := (- b - sqrt disc) / (2 * a) in
  let future := fun r : Q => (r = x1 \/ r = x2) /\ inject_Z d < r in
  let result := solve_for_threshold sqrt (a, b, c) T d in
  (disc < 0 -> result = None) /\
  (0 <= disc -> (forall r, ~ future r) -> result = None) /\
  (0 <= disc -> (exists r, future r) ->
     exists r, future r /\ (forall r', future r' -> r <= r') /\
       0 < r - inject_Z d /\
       result = Some (py_int (r - inject_Z d)) /\
       (0 <= py_int (r - inject_Z d))%Z /\
       (r - inject_Z d < 1 -> result = Some 0%Z)) /\
  (polyval (a, b, c) x1 - T == (sqrt disc * sqrt disc - disc) / (4 * a) /\
   polyval (a, b, c) x2 - T == (sqrt disc * sqrt disc - disc) / (4 * a)) /\
  (sqrt disc * sqrt disc == disc ->
     polyval (a, b, c) x1 == T /\ polyval (a, b, c) x2 == T).
Proof.
  intros Ha disc x1 x2 future result.
  assert (Hq : Qltb (Qabs a) EPS = false) by (apply Qltb_ge; exact Ha).
  assert (Ha0 : ~ a == 0) by (apply Qabs_ge_EPS_nonzero; exact Ha).
  assert (Hres : result =
            if Qltb disc 0 then None
            else match filter (fun x => Qltb (inject_Z d) x) [x1; x2] with
                 | [] => None
                 | v :: vs => days_result (py_min v vs - inject_Z d)
                 end).
  { unfold result, solve_for_threshold. rewrite Hq. reflexivity. }
  assert (Hfut : forall r, future r <->
                   In r (filter (fun x => Qltb (inject_Z d) x) [x1; x2])).
  { intro r. rewrite filter_In, Qltb_lt. unfold future. simpl.
    intuition auto. }
  split; [|split; [|split; [|split]]].
  - intro Hd. rewrite Hres. apply Qltb_lt in Hd. rewrite Hd. reflexivity.
  - intros Hd Hnone. rewrite Hres.
    apply Qltb_ge in Hd. rewrite Hd.
    destruct (filter _ [x1; x2]) as [|v vs] eqn:E; [reflexivity|].
    exfalso. apply (Hnone v). apply Hfut. left; reflexivity.
  - intros Hd [r0 Hr0]. rewrite Hres.
    apply Qltb_ge in Hd. rewrite Hd.
    apply Hfut in Hr0.
    destruct (filter _ [x1; x2]) as [|v vs] eqn:E; [destruct Hr0|].
    exists (py_min v vs).
    assert (Hin : future (py_min v vs)).
    { apply Hfut. apply py_min_in. }
    assert (Hpos : 0 < py_min v vs - inject_Z d).
    { destruct Hin as [_ Hlt]. lra. }
    assert (Hfl : py_int (py_min v vs - inject_Z d)
                  = Qfloor (py_min v vs - inject_Z d))
      by (apply py_int_floor; lra).
    assert (Hnn : (0 <= Qfloor (py_min v vs - inject_Z d))%Z)
      by (change 0%Z with (Qfloor 0); apply Qfloor_resp_le; lra).
    split; [exact Hin|].
    split; [intros r' Hr'; apply py_min_le; apply Hfut; exact Hr'|].
    split; [exact Hpos|].
    split; [apply days_result_pos; exact Hpos|].
    split; [rewrite Hfl; exact Hnn|].
    intro Hlt. rewrite days_result_pos by exact Hpos. f_equal.
    rewrite Hfl.
    pose proof (Qfloor_le (py_min v vs - inject_Z d)) as Hle.
    assert (Hz : inject_Z (Qfloor (py_min v vs - inject_Z d)) < inject_Z 1)
      by (change (inject_Z 1) with 1; lra).
    rewrite <- Zlt_Qlt in Hz. lia.
  - split; apply quadratic_root_residual; try exact Ha0;
      [left | right]; reflexivity.
  - intro Hs. split; eapply quadratic_root_sound;
      try exact Ha0; try exact Hs; [left | right]; reflexivity.
Qed.

(** Whenever the solver returns a day count, it is the truncation of
    [x - current_day] for the exact solution [x] of the branch taken. *)
Lemma solve_for_threshold_some (a b c T : Q) (d k : Z) :
  solve_for_threshold sqrt (a, b, c) T d = Some k ->
  exists x : Q,
    days_result (x - inject_Z d) = Some k /\
    ((Qabs a < EPS /\ EPS <= Qabs b /\ 0 <= b /\ x = - (c - T) / b) \/
     (EPS <= Qabs a /\ 0 <= discriminant a b (c - T) /\
      (x = root1 sqrt a b (c - T) \/ x = root2 sqrt a b (c - T)))).
Proof.
  unfold solve_for_threshold.
  case_Qltb (Qabs a) EPS Ea.
  - case_Qltb (Qabs b) EPS Eb; [discriminate|].
    case_Qltb b 0 Eb0; [discriminate|].
    intro H. exists (- (c - T) / b). split; [exact H|]. left. auto.
  - case_Qltb (discriminant a b (c - T)) 0 Ed; [discriminate|].
    destruct (valid_solutions sqrt a b (c - T) d) as [|v vs] eqn:Ev;
      [discriminate|].
    intro H. exists (py_min v vs). split; [exact H|]. right.
    split; [exact Ea|]. split; [exact Ed|].
    pose proof (py_min_in v vs) as Hin. rewrite <- Ev in Hin.
    unfold valid_solutions in Hin. apply filter_In in Hin.
    destruct Hin as [[Hin | [Hin | []]] _]; auto.
Qed.

(** C3, as amended.  When the solver returns [k] days, the root [x] that it
    computed (by the quadratic formula, or (T - c) / b when |a| < 1e-6) lies
    in the future and within one day after [current_day + k], [k] being the
    truncation of [x - current_day]; and the model at [x], with a taken as 0
    when |a| < 1e-6, misses T by (sqrt(disc)^2 - disc) / (4a) exactly, the
    error of the square root (0 in the linear case).  The round trip thus
    holds at [x], up to the square root, and not at the truncated day. *)
Theorem solve_for_threshold_round_trip (a b c T : Q) (d k : Z) :
  solve_for_threshold sqrt (a, b, c) T d = Some k ->
  let disc := b ^ 2 - 4 * a * (c - T) in
  let a_eff := if Qltb (Qabs a) EPS then 0 else a in
  let residual :=
    if Qltb (Qabs a) EPS then 0
    else (sqrt disc * sqrt disc - disc) / (4 * a) in
  exists x : Q,
    polyval (a_eff, b, c) x - T == residual /\
    (sqrt disc * sqrt disc == disc -> polyval (a_eff, b, c) x == T) /\
    inject_Z d < x /\
    k = py_int (x - inject_Z d) /\
    (0 <= k)%Z /\
    inject_Z (d + k) <= x /\ x < inject_Z (d + k + 1).
Proof.
  intros Hsolve disc a_eff residual.
  destruct (solve_for_threshold_some _ _ _ _ _ _ Hsolve) as (x & Hres & Hx).
  apply days_result_some in Hres. destruct Hres as [Hpos Hk].
  exists x.
  assert (Hk0 : (0 <= k)%Z).
  { rewrite Hk. change 0%Z with (Qfloor 0). apply Qfloor_resp_le. lra. }
  destruct (floor_bracket x d k Hk) as [Hlo Hhi].
  assert (Hpy : k = py_int (x - inject_Z d))
    by (rewrite py_int_floor by lra; exact Hk).
  assert (Hmodel : polyval (a_eff, b, c) x - T == residual /\
                   (sqrt disc * sqrt disc == disc ->
                    polyval (a_eff, b, c) x == T)).
  { unfold a_eff, residual.
    destruct Hx as [(Ha & Hb & Hb0 & ->) | (Ha & Hd & Hx)].
    - apply Qltb_lt in Ha. rewrite Ha. unfold polyval.
      assert (Hbn : ~ b == 0).
      { intro E. rewrite E in Hb. revert Hb. apply Qlt_not_le. reflexivity. }
      split; [|intros _]; field; exact Hbn.
    - apply Qltb_ge in Ha as Ha'. rewrite Ha'.
      assert (Ha0 : ~ a == 0) by (apply Qabs_ge_EPS_nonzero; exact Ha).
      assert (Hroot : x == (- b + sqrt disc) / (2 * a) \/
                      x == (- b - sqrt disc) / (2 * a))
        by (destruct Hx as [-> | ->]; [left | right]; reflexivity).
      split.
      + apply quadratic_root_residual; assumption.
      + intro Hs. apply quadratic_root_sound with (s := sqrt disc);
          assumption. }
  destruct Hmodel as [M1 M2].
  split; [exact M1|]. split; [exact M2|].
  split; [lra|]. split; [exact Hpy|]. split; [exact Hk0|].
  split; assumption.
Qed.

(** A flat or declining linear model never reaches a threshold. *)
Lemma solve_for_threshold_no_crossing (a b c T : Q) (d : Z) :
  Qabs a < EPS ->
  Qabs b < EPS \/ b < 0 ->
  solve_for_threshold sqrt (a, b, c) T d = None.
Proof.
  intros Ha Hb. apply Qltb_lt in Ha.
  unfold solve_for_threshold. rewrite Ha.
  case_Qltb (Qabs b) EPS Eb; [reflexivity|].
  case_Qltb b 0 Eb0; [reflexivity|].
  exfalso. destruct Hb as [Hb | Hb]; lra.
Qed.

(** C4, as amended.  Linear case, |a| < 1e-6: a flat model (|b| < 1e-6)
    and a declining one (b < 0) give None; otherwise the solver returns
    [(T - c) / b - current_day] truncated to an integer when that quantity
    is strictly positive, and None when it is not.  So a flat or declining
    linear model gives None for the 80%, 90% and 100% thresholds alike. *)
Theorem solve_for_threshold_linear (a b c T : Q) (d : Z) :
  Qabs a < EPS ->
  let days_from_now := (T - c) / b - inject_Z d in
  let result := solve_for_threshold sqrt (a, b, c) T d in
  (Qabs b < EPS -> result = None) /\
  (b < 0 -> result = None) /\
  (EPS <= Qabs b -> 0 <= b -> 0 < days_from_now ->
     result = Some (py_int days_from_now)) /\
  (EPS <= Qabs b -> 0 <= b -> ~ 0 < days_from_now -> result = None) /\
  (Qabs b < EPS \/ b < 0 ->
     forall total_capacity_gb : Q,
       solve_for_threshold sqrt (a, b, c) (total_capacity_gb * (80 # 100)) d = None /\
       solve_for_threshold sqrt (a, b, c) (total_capacity_gb * (90 # 100)) d = None /\
       solve_for_threshold sqrt (a, b, c) (total_capacity_gb * 1) d = None).
Proof.
  intros Ha days_from_now result.
  assert (Hq : Qltb (Qabs a) EPS = true) by (apply Qltb_lt; exact Ha).
  assert (Hnone : forall T', Qabs b < EPS \/ b < 0 ->
                    solve_for_threshold sqrt (a, b, c) T' d = None)
    by (intros T' Hb; apply solve_for_threshold_no_crossing; assumption).
  assert (Hlin : EPS <= Qabs b -> 0 <= b ->
                 result = days_result (- (c - T) / b - inject_Z d)).
  { intros Hb Hb0. unfold result, solve_for_threshold. rewrite Hq.
    apply Qltb_ge in Hb, Hb0. rewrite Hb, Hb0. reflexivity. }
  assert (Heq : EPS <= Qabs b ->
                - (c - T) / b - inject_Z d == days_from_now).
  { intro Hb. unfold days_from_now. field.
    intro E. rewrite E in Hb. revert Hb. apply Qlt_not_le. reflexivity. }
  split; [|split; [|split; [|split]]].
  - intro Hb. apply Hnone. left; exact Hb.
  - intro Hb. apply Hnone. right; exact Hb.
  - intros Hb Hb0 Hpos. rewrite (Hlin Hb Hb0).
    rewrite days_result_pos by (rewrite (Heq Hb); exact Hpos).
    f_equal. apply py_int_comp, Heq, Hb.
  - intros Hb Hb0 Hnpos. rewrite (Hlin Hb Hb0).
    apply days_result_nonpos. rewrite (Heq Hb). exact Hnpos.
  - intros Hb total. repeat split; apply Hnone; exact Hb.
Qed.

End SolverFacts.

(** C2 as stated fails: with coefficients (1, 0, 0), threshold 0.25 and
    current day 0 the only future root is 0.5; its truncation 0 is not
    strictly positive, and the solver returns 0, not None. *)
Lemma solve_for_threshold_quadratic_counterexample :
  ~ (forall k : Z,
       solve_for_threshold sqrt_floor (1, 0, 0) (1 # 4) 0 = Some k ->
       (0 < k)%Z).
Proof.
  intro H. specialize (H 0%Z eq_refl). lia.
Qed.

Lemma solve_for_threshold_quadratic_witness :
  EPS <= Qabs 1 /\
  exists r : Q,
    inject_Z 0 < r /\
    solve_for_threshold sqrt_floor (1, 0, 0) (1 # 4) 0
    = Some (py_int (r - inject_Z 0)) /\
    solve_for_threshold sqrt_floor (1, 0, 0) (1 # 4) 0 = Some 0%Z.
Proof.
  assert (Ha : EPS <= Qabs 1) by (vm_compute; discriminate).
  split; [exact Ha|].
  destruct (solve_for_threshold_quadratic sqrt_floor 1 0 0 (1 # 4) 0 Ha)
    as (_ & _ & H & _).
  destruct H as (r & [_ Hr] & _ & _ & Hres & _ & Hzero).
  - vm_compute; discriminate.
  - exists ((- 0 + sqrt_floor (0 ^ 2 - 4 * 1 * (0 - (1 # 4)))) / (2 * 1)).
    split; [left; reflexivity | vm_compute; reflexivity].
  - exists r. split; [exact Hr|]. split; [exact Hres|].
    vm_compute. reflexivity.
Defined.

(** C3 as stated fails: with coefficients (1, 0, 0), threshold 20.25 and
    current day 0 the solver returns 4 days (the root is 4.5), and the model
    at day 4 is 16, not 20.25. *)
Lemma solve_for_threshold_round_trip_counterexample :
  ~ (forall k : Z,
       solve_for_threshold sqrt_floor (1, 0, 0) (81 # 4) 0 = Some k ->
       Qabs (polyval (1, 0, 0) (inject_Z (0 + k)) - (81 # 4)) <= 1 # 1000000).
Proof.
  intro H. specialize (H 4%Z eq_refl). vm_compute in H. apply H. reflexivity.
Qed.

Lemma solve_for_threshold_round_trip_witness :
  solve_for_threshold sqrt_floor (1, 0, 0) (81 # 4) 0 = Some 4%Z /\
  exists x : Q,
    polyval (1, 0, 0) x == 81 # 4 /\
    4%Z = py_int (x - inject_Z 0) /\
    inject_Z (0 + 4) <= x /\ x < inject_Z (0 + 4 + 1).
Proof.
  assert (Hs : solve_for_threshold sqrt_floor (1, 0, 0) (81 # 4) 0 = Some 4%Z)
    by (vm_compute; reflexivity).
  split; [exact Hs|].
  destruct (solve_for_threshold_round_trip sqrt_floor 1 0 0 (81 # 4) 0 4 Hs)
    as (x & _ & H1 & _ & Hk & _ & H3 & H4).
  exists x. split; [|split; [exact Hk | split; [exact H3 | exact H4]]].
  apply H1. vm_compute. reflexivity.
Defined.

(** A quadratic coefficient below 1e-6 is ignored by the solver: with
    coefficients (1e-7, 1, 0) and threshold 1000 it returns 1000 days, where
    the model is 1000.1. *)
Example solve_for_threshold_small_a :
  solve_for_threshold sqrt_floor (1 # 10000000, 1, 0) 1000 0 = Some 1000%Z /\
  polyval (1 # 10000000, 1, 0) (inject_Z (0 + 1000)) == 10001 # 10.
Proof. split; vm_compute; reflexivity. Qed.

(** C4 as stated fails: with coefficients (0, 2, 0), threshold 5 and current
    day 0 the quantity (T - c)/b - d is 2.5, and the solver returns 2. *)
Lemma solve_for_threshold_linear_counterexample :
  ~ (0 < (5 - 0) / 2 - inject_Z 0 ->
     exists k : Z,
       solve_for_threshold sqrt_floor (0, 2, 0) 5 0 = Some k /\
       inject_Z k == (5 - 0) / 2 - inject_Z 0).
Proof.
  intro H. destruct H as (k & Hk & E); [vm_compute; reflexivity|].
  vm_compute in Hk. injection Hk as <-. vm_compute in E. discriminate.
Qed.

Lemma solve_for_threshold_linear_witness :
  Qabs 0 < EPS /\
  solve_for_threshold sqrt_floor (0, 2, 0) 5 0
  = Some (py_int ((5 - 0) / 2 - inject_Z 0)).
Proof.
  assert (Ha : Qabs 0 < EPS) by (vm_compute; reflexivity).
  split; [exact Ha|].
  destruct (solve_for_threshold_linear sqrt_floor 0 2 0 5 0 Ha)
    as (_ & _ & H & _).
  apply H; vm_compute; try reflexivity; discriminate.
Defined.

(** The three predictions of a forecast whose model is flat or declining
    (no deduplication adjustment). *)
Lemma assemble_forecast_no_crossing
      (sqrt : Q -> Q) (format_1f : Q -> string) (cfg : Config)
      (model : FitResult) (n : nat) (d : Z) (total : Q) (a b c : Q) :
  coeffs model = (a, b, c) ->
  Qabs a < EPS ->
  Qabs b < EPS \/ b < 0 ->
  let f := assemble_forecast sqrt format_1f cfg model 1 n d total in
  days_to_80 f = None /\ days_to_90 f = None /\ days_to_100 f = None /\
  priority f = "LOW"%string.
Proof.
  intros Hc Ha Hb f.
  pose proof (fun T => solve_for_threshold_no_crossing sqrt a b c T d Ha Hb)
    as Hnone.
  unfold f, assemble_forecast. rewrite Hc. cbn [Qeq_bool negb].
  change (negb (Qeq_bool 1 1)) with false. cbv iota.
  destruct (classify_confidence cfg (r_squared model) n) as [lvl mult].
  cbn [days_to_80 days_to_90 days_to_100 priority].
  rewrite !Hnone. repeat split.
Qed.

(** ** Confidence and priority *)

(** C7.  Confidence is HIGH with multiplier 1.0 exactly when
    r_squared >= r_high and n >= 21; otherwise MODERATE with multiplier 0.8
    exactly when r_squared >= r_moderate and n >= min_days; otherwise LOW
    with multiplier 0.5.  21 samples with r_squared equal to r_high classify
    HIGH, 20 samples with the same r_squared do not. *)
Theorem classify_confidence_spec (cfg : Config) (r2 : Q) (n : nat) :
  let high := R_SQUARED_HIGH cfg <= r2 /\ (21 <= n)%nat in
  let moderate := R_SQUARED_MODERATE cfg <= r2 /\ (MIN_DAYS cfg <= n)%nat in
  (classify_confidence cfg r2 n = ("HIGH"%string, 1) <-> high) /\
  (classify_confidence cfg r2 n = ("MODERATE"%string, 8 # 10)
     <-> ~ high /\ moderate) /\
  (classify_confidence cfg r2 n = ("LOW"%string, 5 # 10)
     <-> ~ high /\ ~ moderate) /\
  classify_confidence cfg (R_SQUARED_HIGH cfg) 21 = ("HIGH"%string, 1) /\
  fst (classify_confidence cfg (R_SQUARED_HIGH cfg) 20) <> "HIGH"%string.
Proof.
  intros high moderate.
  assert (Hh : Qle_bool (R_SQUARED_HIGH cfg) r2 && (21 <=? n)%nat = true <-> high).
  { unfold high. rewrite andb_true_iff, Qle_bool_iff, Nat.leb_le. reflexivity. }
  assert (Hm : Qle_bool (R_SQUARED_MODERATE cfg) r2 && (MIN_DAYS cfg <=? n)%nat = true
               <-> moderate).
  { unfold moderate. rewrite andb_true_iff, Qle_bool_iff, Nat.leb_le. reflexivity. }
  assert (Hrefl : Qle_bool (R_SQUARED_HIGH cfg) (R_SQUARED_HIGH cfg) = true)
    by (apply Qle_bool_iff, Qle_refl).
  split; [|split; [|split; [|split]]].
  4: { unfold classify_confidence. rewrite Hrefl. reflexivity. }
  4: { unfold classify_confidence. rewrite Hrefl.
       change (true && (21 <=? 20)%nat) with false. cbv iota.
       destruct (Qle_bool (R_SQUARED_MODERATE cfg) (R_SQUARED_HIGH cfg)
                 && (MIN_DAYS cfg <=? 20)%nat);
         cbn [fst]; intro X; discriminate X. }
  all: unfold classify_confidence.
  all: destruct (Qle_bool (R_SQUARED_HIGH cfg) r2 && (21 <=? n)%nat) eqn:Eh.
  all: try (assert (Fh : high) by (apply Hh; reflexivity)).
  all: try (assert (Fh : ~ high) by (intro X; apply Hh in X; discriminate)).
  all: destruct (Qle_bool (R_SQUARED_MODERATE cfg) r2 && (MIN_DAYS cfg <=? n)%nat) eqn:Em.
  all: try (assert (Fm : moderate) by (apply Hm; reflexivity)).
  all: try (assert (Fm : ~ moderate) by (intro X; apply Hm in X; discriminate)).
  all: split; intro X;
    first [discriminate X | reflexivity | tauto].
Qed.

Lemma days_below_some (k limit : Z) :
  days_below (Some k) limit = true <-> (k <> 0 /\ k < limit)%Z.
Proof.
  unfold days_below, truthy.
  rewrite andb_true_iff, negb_true_iff, Z.eqb_neq, Z.ltb_lt. reflexivity.
Qed.

(** What the priority classification does for a day count other than 0, and
    for no day count. *)
Lemma classify_priority_nonzero (cfg : Config) (k : Z) :
  k <> 0%Z ->
  let p := classify_priority cfg (Some k) in
  ((k < URGENT_THRESHOLD_DAYS cfg)%Z -> p = "URGENT"%string) /\
  ((URGENT_THRESHOLD_DAYS cfg <= k < HIGH_THRESHOLD_DAYS cfg)%Z ->
     p = "HIGH"%string) /\
  ((URGENT_THRESHOLD_DAYS cfg <= k)%Z /\ (HIGH_THRESHOLD_DAYS cfg <= k)%Z /\
   (k < MEDIUM_THRESHOLD_DAYS cfg)%Z -> p = "MEDIUM"%string) /\
  ((URGENT_THRESHOLD_DAYS cfg <= k)%Z /\ (HIGH_THRESHOLD_DAYS cfg <= k)%Z /\
   (MEDIUM_THRESHOLD_DAYS cfg <= k)%Z -> p = "LOW"%string).
Proof.
  intros Hk p. unfold p, classify_priority.
  destruct (days_below (Some k) (URGENT_THRESHOLD_DAYS cfg)) eqn:EU;
  destruct (days_below (Some k) (HIGH_THRESHOLD_DAYS cfg)) eqn:EH;
  destruct (days_below (Some k) (MEDIUM_THRESHOLD_DAYS cfg)) eqn:EM.
  all: try apply days_below_some in EU; try apply days_below_some in EH;
       try apply days_below_some in EM.
  all: repeat match goal with
       | H : days_below (Some ?z) ?l = false |- _ =>
           assert (~ (z < l)%Z)
             by (intro X; assert (days_below (Some z) l = true)
                   by (apply days_below_some; split; assumption); congruence);
           clear H
       end.
  all: repeat split; intros; try reflexivity; exfalso; lia.
Qed.

Lemma classify_priority_none (cfg : Config) :
  classify_priority cfg None = "LOW"%string.
Proof. reflexivity. Qed.

(** Without a day count the recommendation is one of the two "monitor"
    texts. *)
Lemma generate_recommendation_none
      (format_1f : Q -> string) (cfg : Config) (pattern : string) (rate : Q) :
  generate_recommendation format_1f cfg pattern rate None =
    (if String.eqb pattern "DECLINING"
     then "Capacity declining at " ++ format_1f (Qabs rate)
            ++ " GB/day. Monitor for stabilization."
     else "LOW: N/A days to 80% capacity. Monitor quarterly.")%string.
Proof.
  unfold generate_recommendation. destruct (String.eqb pattern "DECLINING");
    reflexivity.
Qed.

(** C5.  The priority of a forecast whose days_to_80 is 0.  A linear model
    with slope 5 GB/day and intercept 402.5 GB, on day 79 of a 1000 GB
    repository, crosses 80% half a day ahead: the solver returns 0 days.
    The conditions [days_to_80 and days_to_80 < ...] treat 0 like None, so
    the priority is LOW and the recommendation prints N/A, for every
    configuration of the thresholds. *)
Theorem priority_of_zero_days :
  let model := {| coeffs := (0, 5, 805 # 2); model_type := "LINEAR";
                  r_squared := 1; p_value := 1; mse := 0 |} in
  let f := assemble_forecast sqrt_floor format_1f_trunc default_config
                             model 1 60 79 1000 in
  days_to_80 f = Some 0%Z /\
  (0 < URGENT_THRESHOLD_DAYS default_config)%Z /\
  priority f = "LOW"%string /\
  recommendation f
    = "LOW: N/A days to 80% capacity. Monitor quarterly."%string /\
  (forall cfg : Config, classify_priority cfg (Some 0%Z) = "LOW"%string).
Proof.
  repeat split.
Qed.

(** ** Deduplication trend *)

(** C9.  With fewer than 10 observations the classifier returns
    (UNKNOWN, 1.0).  Otherwise, with the list split by position into its
    first and second half and [diff] the difference of their means: a
    difference above the improving threshold gives IMPROVING with the
    improving adjustment, which is below 1.0; a difference below the
    degrading threshold gives DEGRADING with the degrading adjustment,
    which is above 1.0; anything else gives (STABLE, 1.0).  The two
    adjustments are configuration constants, assumed below and above 1.0 as
    the specification asks; the degrading threshold is assumed not to
    exceed the improving one. *)
Theorem analyze_dedup_trend_spec (cfg : Config) (dedup_ratios : list Q) :
  DEDUP_IMPROVING_ADJUSTMENT cfg < 1 ->
  1 < DEDUP_DEGRADING_ADJUSTMENT cfg ->
  DEDUP_DEGRADING_THRESHOLD cfg <= DEDUP_IMPROVING_THRESHOLD cfg ->
  let mid := (length dedup_ratios / 2)%nat in
  let diff := mean (skipn mid dedup_ratios) - mean (firstn mid dedup_ratios) in
  let result := analyze_dedup_trend cfg dedup_ratios in
  ((length dedup_ratios < 10)%nat -> result = ("UNKNOWN"%string, 1)) /\
  ((10 <= length dedup_ratios)%nat ->
     (DEDUP_IMPROVING_THRESHOLD cfg < diff ->
        fst result = "IMPROVING"%string /\ snd result < 1) /\
     (diff < DEDUP_DEGRADING_THRESHOLD cfg ->
        fst result = "DEGRADING"%string /\ 1 < snd result) /\
     (diff <= DEDUP_IMPROVING_THRESHOLD cfg ->
      DEDUP_DEGRADING_THRESHOLD cfg <= diff ->
        result = ("STABLE"%string, 1))).
Proof.
  intros Himp Hdeg Hthr mid diff result.
  unfold result, analyze_dedup_trend. fold mid. fold diff.
  split.
  - intro Hlen. apply Nat.ltb_lt in Hlen. rewrite Hlen. reflexivity.
  - intro Hlen. apply Nat.ltb_ge in Hlen. rewrite Hlen.
    case_Qltb (DEDUP_IMPROVING_THRESHOLD cfg) diff Ei;
      case_Qltb diff (DEDUP_DEGRADING_THRESHOLD cfg) Ed.
    all: cbn [fst snd].
    all: repeat split; intros; try reflexivity; try assumption;
      exfalso; lra.
Qed.

Lemma analyze_dedup_trend_spec_witness :
  let l := [2; 2; 2; 2; 2; 3; 3; 3; 3; 3] in
  (10 <= length l)%nat /\
  analyze_dedup_trend default_config l = ("IMPROVING"%string, 9 # 10).
Proof.
  intro l.
  destruct (analyze_dedup_trend_spec default_config l) as [_ H].
  - reflexivity.
  - reflexivity.
  - vm_compute; discriminate.
  - assert (Hlen : (10 <= length l)%nat) by (simpl; lia).
    split; [exact Hlen|].
    destruct (H Hlen) as ((H1 & H2) & _); [vm_compute; reflexivity|].
    vm_compute. reflexivity.
Defined.

(** ** Outlier removal and the re-alignment of x *)

Lemma mask_select_cons {A : Type} (a : A) (l : list A) (b : bool) (m : list bool) :
  mask_select (a :: l) (b :: m) =
  if b then a :: mask_select l m else mask_select l m.
Proof. unfold mask_select. simpl. destruct b; reflexivity. Qed.

Lemma mask_select_combine {A B : Type} (l : list A) (l' : list B) (m : list bool) :
  length l = length l' ->
  mask_select (combine l l') m = combine (mask_select l m) (mask_select l' m).
Proof.
  revert l' m. induction l as [|a l IH]; intros [|a' l'] m Hlen;
    try discriminate; [reflexivity|].
  destruct m as [|b m]; [reflexivity|].
  simpl combine at 1. rewrite !mask_select_cons.
  injection Hlen as Hlen. rewrite (IH l' m Hlen).
  destruct b; reflexivity.
Qed.

Lemma mask_select_length {A B : Type} (l : list A) (l' : list B) (m : list bool) :
  length l = length l' ->
  length (mask_select l m) = length (mask_select l' m).
Proof.
  revert l' m. induction l as [|a l IH]; intros [|a' l'] m Hlen;
    try discriminate; [reflexivity|].
  destruct m as [|b m]; [reflexivity|].
  rewrite !mask_select_cons. injection Hlen as Hlen.
  destruct b; simpl; rewrite (IH l' m Hlen); reflexivity.
Qed.

Section OutlierFacts.

Variable sqrt : Q -> Q.

Lemma keep_mask_complement (y : list Q) (threshold : Q) :
  keep_mask sqrt y threshold = map negb (outliers_mask sqrt y threshold).
Proof.
  unfold keep_mask, outliers_mask. rewrite map_map. apply map_ext.
  intro v. unfold Qltb. rewrite negb_involutive. reflexivity.
Qed.

Lemma remove_outliers_removed (y : list Q) (threshold : Q) :
  (0 < snd (remove_outliers sqrt y threshold))%nat ->
  remove_outliers sqrt y threshold =
    (mask_select y (map negb (outliers_mask sqrt y threshold)),
     count_true (outliers_mask sqrt y threshold)).
Proof.
  unfold remove_outliers.
  destruct (length y <? 3)%nat; [simpl; lia|].
  destruct (Qeq_bool (std sqrt y) 0); [simpl; lia|].
  destruct (0 <? count_true (outliers_mask sqrt y threshold))%nat;
    [reflexivity | simpl; lia].
Qed.

(** C10.  When at least one outlier is removed, the mask that
    analyze_repository recomputes to filter x is, cell by cell, the
    complement of the outlier mask of remove_outliers; the filtered x and
    the cleaned y therefore have the same length and stay aligned: zipped
    together they are the original (x, y) pairs that the mask keeps. *)
Theorem realign_outliers_aligned
        (cfg : Config) (x : list Z) (y : list Q)
        (x' : list Z) (y' : list Q) (removed : nat) :
  length x = length y ->
  realign_outliers sqrt cfg x y = (x', y', removed) ->
  (0 < removed)%nat ->
  let keep := keep_mask sqrt y (OUTLIER_THRESHOLD cfg) in
  keep = map negb (outliers_mask sqrt y (OUTLIER_THRESHOLD cfg)) /\
  (x', y') = (mask_select x keep, mask_select y keep) /\
  length x' = length y' /\
  combine x' y' = mask_select (combine x y) keep /\
  removed = count_true (outliers_mask sqrt y (OUTLIER_THRESHOLD cfg)).
Proof.
  intros Hlen Hre Hpos keep.
  pose proof (keep_mask_complement y (OUTLIER_THRESHOLD cfg)) as Hc.
  fold keep in Hc.
  unfold realign_outliers in Hre.
  destruct (remove_outliers sqrt y (OUTLIER_THRESHOLD cfg))
    as [y_clean cnt] eqn:Er.
  assert (Hcnt : cnt = removed).
  { destruct (0 <? cnt)%nat; injection Hre; auto. }
  subst cnt.
  pose proof (remove_outliers_removed y (OUTLIER_THRESHOLD cfg)) as Hr.
  rewrite Er in Hr. specialize (Hr Hpos). injection Hr as Hy Hn.
  apply Nat.ltb_lt in Hpos. rewrite Hpos in Hre. fold keep in Hre.
  injection Hre as Hx Hy'. subst x' y' y_clean.
  split; [exact Hc|]. rewrite <- Hc. split; [reflexivity|].
  split; [apply mask_select_length; exact Hlen|].
  split; [symmetry; apply mask_select_combine; exact Hlen | exact Hn].
Qed.

End OutlierFacts.

Lemma realign_outliers_aligned_witness :
  let x := [0; 1; 2; 3; 4; 5; 6; 7; 8; 9; 10]%Z in
  let y := [10; 10; 10; 10; 10; 10; 10; 10; 10; 10; 900] in
  realign_outliers sqrt_floor default_config x y
    = ([0; 1; 2; 3; 4; 5; 6; 7; 8; 9]%Z,
       [10; 10; 10; 10; 10; 10; 10; 10; 10; 10], 1%nat) /\
  combine [0; 1; 2; 3; 4; 5; 6; 7; 8; 9]%Z
          [10; 10; 10; 10; 10; 10; 10; 10; 10; 10]
    = mask_select (combine x y)
                  (keep_mask sqrt_floor y (OUTLIER_THRESHOLD default_config)).
Proof.
  intros x y.
  assert (Hre : realign_outliers sqrt_floor default_config x y
                = ([0; 1; 2; 3; 4; 5; 6; 7; 8; 9]%Z,
                   [10; 10; 10; 10; 10; 10; 10; 10; 10; 10], 1%nat))
    by (vm_compute; reflexivity).
  split; [exact Hre|].
  destruct (realign_outliers_aligned sqrt_floor default_config x y _ _ _
              eq_refl Hre (Nat.lt_0_1)) as (_ & _ & _ & H & _).
  exact H.
Defined.

(** ** Model selection *)

Lemma inv_singular (m : Mat3) : det3 m == 0 -> inv m = None.
Proof.
  intro H. destruct m as [[[[a b] c] [[d e] f]] [[g h] i]].
  unfold inv. apply Qeq_bool_iff in H. rewrite H. reflexivity.
Qed.

Section FitterFacts.

Variable sqrt : Q -> Q.
Variable t_sf : Q -> Z -> Q.
Variable polyfit1 : list Q -> list Q -> option (Q * Q).
Variable polyfit2 : list Q -> list Q -> option Vec3.
Variable cfg : Config.

(** The shape of the result, once both fits have returned. *)
Lemma fit_model_unfold (x y : list Q) (lin : Q * Q) (coeffs_quad : Vec3) :
  polyfit1 x y = Some lin ->
  polyfit2 x y = Some coeffs_quad ->
  exists r : FitResult,
    fit_model sqrt t_sf polyfit1 polyfit2 cfg x y = Some r /\
    p_value r = quad_p_value sqrt t_sf coeffs_quad x y /\
    (model_type r, coeffs r) =
      (if Qltb (p_value r) (P_VALUE_THRESHOLD cfg)
       then ("QUADRATIC"%string, coeffs_quad)
       else ("LINEAR"%string, (0, fst lin, snd lin))).
Proof.
  intros H1 H2. unfold fit_model. rewrite H1, H2.
  destruct (Qltb (quad_p_value sqrt t_sf coeffs_quad x y)
                 (P_VALUE_THRESHOLD cfg)) eqn:E;
    eexists; (split; [reflexivity|]); cbn [p_value model_type coeffs];
    rewrite E; split; reflexivity.
Qed.

(** C1.  Once numpy's two fits have returned, the fitter returns a model.
    Its p-value is the two-sided one of the t-statistic |a / se(a)| with
    n - 3 degrees of freedom whenever se(a) exists and is positive.  The
    model is QUADRATIC exactly when that p-value is strictly below the
    configured threshold, and then the coefficients are those of the
    degree-2 fit; otherwise it is LINEAR with the coefficients
    (0, slope, intercept) of the degree-1 fit. *)
Theorem fit_model_selection
        (x y : list Q) (slope intercept : Q) (coeffs_quad : Vec3) :
  polyfit1 x y = Some (slope, intercept) ->
  polyfit2 x y = Some coeffs_quad ->
  exists r : FitResult,
    fit_model sqrt t_sf polyfit1 polyfit2 cfg x y = Some r /\
    (forall se_a : Q,
        quad_se_a sqrt coeffs_quad x y = Some se_a -> 0 < se_a ->
        p_value r = 2 * t_sf (Qabs (fst (fst coeffs_quad) / se_a))
                             (Z.of_nat (length x) - 3)) /\
    (model_type r = "QUADRATIC"%string
       <-> p_value r < P_VALUE_THRESHOLD cfg) /\
    (p_value r < P_VALUE_THRESHOLD cfg ->
       model_type r = "QUADRATIC"%string /\ coeffs r = coeffs_quad) /\
    (~ p_value r < P_VALUE_THRESHOLD cfg ->
       model_type r = "LINEAR"%string /\
       coeffs r = (0, slope, intercept)).
Proof.
  intros H1 H2.
  destruct (fit_model_unfold x y _ _ H1 H2) as (r & Hr & Hp & Hsel).
  exists r. split; [exact Hr|]. split.
  - intros se_a Hse Hpos. rewrite Hp. unfold quad_p_value. rewrite Hse.
    apply Qltb_lt in Hpos. rewrite Hpos. reflexivity.
  - cbn [fst snd] in Hsel.
    destruct (Qltb (p_value r) (P_VALUE_THRESHOLD cfg)) eqn:E;
      [apply Qltb_lt in E | apply Qltb_ge in E];
      injection Hsel as Hm Hc; rewrite Hm, Hc.
    + split; [split; [intros _; exact E | intros _; reflexivity]|].
      split; [intros _; split; reflexivity | intro X; exfalso; apply X, E].
    + assert (Hn : ~ p_value r < P_VALUE_THRESHOLD cfg) by lra.
      split; [split; [intro X; discriminate X | intro X; exfalso; apply Hn, X]|].
      split; [intro X; exfalso; apply Hn, X | intros _; split; reflexivity].
Qed.

(** What the try / except of fit_model absorbs: once numpy's two fits have
    returned, a singular normal matrix of the design [x^2, x, 1], or a
    standard error of zero, gives a p-value of exactly 1.0, and with a
    p-value threshold of at most 1 the LINEAR model. *)
Lemma fit_model_degenerate
        (x y : list Q) (slope intercept : Q) (coeffs_quad : Vec3) :
  polyfit1 x y = Some (slope, intercept) ->
  polyfit2 x y = Some coeffs_quad ->
  det3 (XtX (design_matrix x)) == 0 \/
  (exists se_a : Q, quad_se_a sqrt coeffs_quad x y = Some se_a /\ se_a == 0) ->
  exists r : FitResult,
    fit_model sqrt t_sf polyfit1 polyfit2 cfg x y = Some r /\
    p_value r = 1 /\
    (P_VALUE_THRESHOLD cfg <= 1 ->
       model_type r = "LINEAR"%string /\ coeffs r = (0, slope, intercept)).
Proof.
  intros H1 H2 Hdeg.
  destruct (fit_model_unfold x y _ _ H1 H2) as (r & Hr & Hp & Hsel).
  exists r. split; [exact Hr|].
  assert (Hone : p_value r = 1).
  { rewrite Hp. unfold quad_p_value.
    destruct Hdeg as [Hsing | (se_a & Hse & Hz)].
    - unfold quad_se_a. rewrite (inv_singular _ Hsing). reflexivity.
    - rewrite Hse.
      assert (E : Qltb 0 se_a = false) by (apply Qltb_ge; lra).
      rewrite E. reflexivity. }
  split; [exact Hone|].
  intro Hthr. rewrite Hone in Hsel.
  assert (E : Qltb 1 (P_VALUE_THRESHOLD cfg) = false)
    by (apply Qltb_ge; exact Hthr).
  rewrite E in Hsel. cbn [fst snd] in Hsel.
  injection Hsel as Hm Hc. split; assumption.
Qed.

End FitterFacts.

Lemma fit_model_selection_witness :
  let x := [0; 1; 2; 3; 4; 5; 6] in
  let y := [0; 1; 4; 9; 16; 25; 37] in
  exists r : FitResult,
    fit_model sqrt_floor t_sf_sample polyfit1_lstsq polyfit2_lstsq
              default_config x y = Some r /\
    model_type r = "QUADRATIC"%string /\
    coeffs r = (89 # 84, - (1 # 4), 5 # 42).
Proof.
  intros x y.
  destruct (fit_model_selection sqrt_floor t_sf_sample
              polyfit1_lstsq polyfit2_lstsq default_config x y
              (171 # 28) (- (145 # 28)) (89 # 84, - (1 # 4), 5 # 42))
    as (r & Hr & _ & _ & Hq & _).
  - vm_compute; reflexivity.
  - vm_compute; reflexivity.
  - exists r. split; [exact Hr|]. apply Hq.
    vm_compute in Hr. injection Hr as <-. vm_compute. reflexivity.
Defined.

Example fit_model_degenerate_example :
  let x := [1; 1; 1; 1] in
  let y := [1; 2; 3; 4] in
  det3 (XtX (design_matrix x)) == 0 /\
  exists r : FitResult,
    fit_model sqrt_floor t_sf_sample polyfit1_lstsq polyfit2_lstsq
              default_config x y = Some r /\
    p_value r = 1 /\
    model_type r = "LINEAR"%string /\ coeffs r = (0, 5 # 4, 5 # 4).
Proof.
  intros x y.
  assert (Hdet : det3 (XtX (design_matrix x)) == 0) by (vm_compute; reflexivity).
  split; [exact Hdet|].
  destruct (fit_model_degenerate sqrt_floor t_sf_sample
              polyfit1_lstsq polyfit2_lstsq default_config x y
              (5 # 4) (5 # 4) (5 # 6, 5 # 6, 5 # 6))
    as (r & Hr & Hp & Hl).
  - vm_compute; reflexivity.
  - vm_compute; reflexivity.
  - left; exact Hdet.
  - exists r. split; [exact Hr|]. split; [exact Hp|].
    apply Hl. vm_compute; discriminate.
Qed.

(** The instances of np.polyfit on a constant x: the minimum-norm fits on
    x = [1, 1, 1, 1], an exception on x = [0, 0, 0, 0]. *)
Example polyfit_lstsq_constant_x :
  polyfit1_lstsq [1; 1; 1; 1] [1; 2; 3; 4] = Some (5 # 4, 5 # 4) /\
  polyfit2_lstsq [1; 1; 1; 1] [1; 2; 3; 4] = Some (5 # 6, 5 # 6, 5 # 6) /\
  polyfit1_lstsq [0; 0; 0; 0] [1; 2; 3; 4] = None /\
  polyfit2_lstsq [0; 0; 0; 0] [1; 2; 3; 4] = None.
Proof. vm_compute. repeat split. Qed.

(** C8.  The fail-safe of fit_model does not cover np.polyfit, which is
    called before the try block.  On x = [0, 0, 0, 0] the design
    [x^2, x, 1] is singular, np.polyfit raises, and so does fit_model: no
    model with p-value 1.0 is returned.  Whatever np.polyfit and the other
    primitives are, an exception of either polyfit call is an exception of
    fit_model. *)
Theorem fit_model_polyfit_raises :
  det3 (XtX (design_matrix [0; 0; 0; 0])) == 0 /\
  fit_model sqrt_floor t_sf_sample polyfit1_lstsq polyfit2_lstsq
            default_config [0; 0; 0; 0] [1; 2; 3; 4] = None /\
  (forall (sqrt : Q -> Q) (t_sf : Q -> Z -> Q)
          (polyfit1 : list Q -> list Q -> option (Q * Q))
          (polyfit2 : list Q -> list Q -> option Vec3)
          (cfg : Config) (x y : list Q),
      polyfit1 x y = None \/ polyfit2 x y = None ->
      fit_model sqrt t_sf polyfit1 polyfit2 cfg x y = None).
Proof.
  split; [vm_compute; reflexivity|]. split; [vm_compute; reflexivity|].
  intros sqrt t_sf polyfit1 polyfit2 cfg x y H. unfold fit_model.
  destruct H as [-> | ->]; [reflexivity|].
  destruct (polyfit1 x y); reflexivity.
Qed.

(** ** Gap interpolation *)

(** The model of pandas' interpolate agrees with the example of the pandas
    user guide for [limit=1, limit_direction='both']. *)
Example interpolate_linear_both_pandas_guide :
  map (option_map Qred)
      (interpolate_linear_both 1
         [None; None; Some 5; None; None; None; Some 13; None; None])
  = [None; Some 5; Some 5; Some 7; None; Some 11; Some 13; Some 13; None].
Proof. vm_compute. reflexivity. Qed.

(** A missing day that is at most [limit] days from the previous value, or
    from the next one, is filled whatever the length of its gap. *)
Lemma fill_cell_near (limit db da : nat) (vb va : Q) :
  (db <= limit)%nat \/ (da <= limit)%nat ->
  fill_cell limit None (Some (db, vb)) (Some (da, va))
  = Some (vb + (va - vb) / inject_Z (Z.of_nat (db + da))
               * inject_Z (Z.of_nat db)).
Proof.
  intro H. unfold fill_cell.
  assert (E : ((db <=? limit) || (da <=? limit))%nat = true).
  { apply orb_true_iff. rewrite !Nat.leb_le. exact H. }
  rewrite E. reflexivity.
Qed.

Lemma nearest_before_length (last : option (nat * Q)) (s : Series) :
  length (nearest_before last s) = length s.
Proof.
  revert last. induction s as [|[v|] s IH]; intro last; simpl;
    [reflexivity | |]; rewrite IH; reflexivity.
Qed.

Lemma nearest_before_app_value
      (last : option (nat * Q)) (pre : Series) (v : Q) (rest : Series) :
  nearest_before last (pre ++ Some v :: rest) =
  nearest_before last pre
    ++ Some (0%nat, v) :: nearest_before (Some (1%nat, v)) rest.
Proof.
  revert last. induction pre as [|[w|] pre IH]; intro last; simpl;
    [reflexivity | |]; rewrite IH; reflexivity.
Qed.

Lemma nearest_before_run (k : nat) (v : Q) (L : nat) (rest : Series) (j : nat) :
  (j < L)%nat ->
  nth_error (nearest_before (Some (k, v)) (repeat None L ++ rest)) j
  = Some (Some ((k + j)%nat, v)).
Proof.
  revert k j. induction L as [|L IH]; intros k j Hj; [lia|].
  destruct j as [|j]; simpl.
  - rewrite Nat.add_0_r. reflexivity.
  - rewrite IH by lia. do 3 f_equal. lia.
Qed.

Lemma nearest_before_gap
      (pre : Series) (vb : Q) (L : nat) (rest : Series) (j : nat) :
  (j < L)%nat ->
  nth_error (nearest_before None (pre ++ Some vb :: repeat None L ++ rest))
            (length pre + 1 + j)
  = Some (Some (S j, vb)).
Proof.
  intro Hj. rewrite nearest_before_app_value.
  rewrite nth_error_app2 by (rewrite nearest_before_length; lia).
  rewrite nearest_before_length.
  replace (length pre + 1 + j - length pre)%nat with (S j) by lia.
  simpl. apply nearest_before_run. exact Hj.
Qed.

Lemma nearest_after_gap
      (pre : Series) (L : nat) (va : Q) (post : Series) (j : nat) :
  (j < L)%nat ->
  nth_error (nearest_after (pre ++ repeat None L ++ Some va :: post))
            (length pre + j)
  = Some (Some ((L - j)%nat, va)).
Proof.
  intro Hj. unfold nearest_after.
  rewrite nth_error_rev, nearest_before_length, length_rev.
  rewrite !length_app, repeat_length. simpl length.
  assert (E : (length pre + j <? length pre + (L + S (length post)))%nat = true)
    by (apply Nat.ltb_lt; lia).
  rewrite E.
  rewrite !rev_app_distr. simpl rev. rewrite rev_repeat, <- !app_assoc.
  simpl app.
  replace (length pre + (L + S (length post)) - S (length pre + j))%nat
    with (length (rev post) + 1 + (L - 1 - j))%nat
    by (rewrite length_rev; lia).
  rewrite nearest_before_gap by lia.
  do 3 f_equal. lia.
Qed.

Lemma fill_cells_nth (limit : nat) (s : Series)
      (before after : list (option (nat * Q))) (i : nat)
      (cell : option Q) (b a : option (nat * Q)) :
  nth_error s i = Some cell ->
  nth_error before i = Some b ->
  nth_error after i = Some a ->
  nth_error (fill_cells limit s before after) i = Some (fill_cell limit cell b a).
Proof.
  revert before after i.
  induction s as [|c s IH]; intros [|b0 before] [|a0 after] [|i];
    simpl; try discriminate.
  - intros [= ->] [= ->] [= ->]. reflexivity.
  - apply IH.
Qed.

(** What interpolate does inside a gap of [L] missing days between the
    values [vb] and [va]: the day at offset [j] is [S j] days after [vb]
    and [L - j] days before [va]. *)
Lemma interpolate_linear_both_gap
      (limit : nat) (pre : Series) (vb : Q) (L : nat) (va : Q) (post : Series)
      (j : nat) :
  (j < L)%nat ->
  nth_error (interpolate_linear_both limit
               (pre ++ Some vb :: repeat None L ++ Some va :: post))
            (length pre + 1 + j)
  = Some (fill_cell limit None (Some (S j, vb)) (Some ((L - j)%nat, va))).
Proof.
  intro Hj. unfold interpolate_linear_both. apply fill_cells_nth.
  - rewrite nth_error_app2 by lia.
    replace (length pre + 1 + j - length pre)%nat with (S j) by lia.
    simpl. rewrite nth_error_app1 by (rewrite repeat_length; exact Hj).
    apply nth_error_repeat. exact Hj.
  - apply nearest_before_gap. exact Hj.
  - replace (pre ++ Some vb :: repeat None L ++ Some va :: post)
      with ((pre ++ [Some vb]) ++ repeat None L ++ Some va :: post)
      by (rewrite <- app_assoc; reflexivity).
    replace (length pre + 1 + j)%nat with (length (pre ++ [Some vb]) + j)%nat
      by (rewrite length_app; simpl; lia).
    apply nearest_after_gap. exact Hj.
Qed.

(** Gaps of at most [limit] days are filled by linear interpolation between
    their neighbours; in a longer gap the first [limit] and the last [limit]
    days are filled as well, and only the days in between stay missing. *)
Lemma interpolate_linear_both_gap_cases
      (limit : nat) (pre : Series) (vb : Q) (L : nat) (va : Q) (post : Series)
      (j : nat) :
  (j < L)%nat ->
  let cell := nth_error (interpolate_linear_both limit
                           (pre ++ Some vb :: repeat None L ++ Some va :: post))
                        (length pre + 1 + j) in
  let linear := vb + (va - vb) / inject_Z (Z.of_nat (S j + (L - j)))
                     * inject_Z (Z.of_nat (S j)) in
  ((L <= limit)%nat -> cell = Some (Some linear)) /\
  ((S j <= limit)%nat \/ (L - j <= limit)%nat -> cell = Some (Some linear)) /\
  ((limit < S j)%nat /\ (limit < L - j)%nat -> cell = Some None).
Proof.
  intros Hj cell linear. unfold cell.
  rewrite (interpolate_linear_both_gap limit pre vb L va post j Hj).
  split; [|split].
  - intro HL. rewrite fill_cell_near by lia. reflexivity.
  - intro H. rewrite fill_cell_near by exact H. reflexivity.
  - intros [H1 H2]. unfold fill_cell.
    assert (E : ((S j <=? limit) || (L - j <=? limit))%nat = false).
    { apply orb_false_iff. rewrite !Nat.leb_gt. split; assumption. }
    rewrite E. reflexivity.
Qed.

(** C6.  Gaps longer than max_gap_days are meant to stay missing (the
    docstring reads "Linear interpolation for gaps <= max_gap_days").  On a
    gap of 3 days with max_gap_days = 2, interpolate_gaps fills all three
    days and counts 3 interpolated days, so no day is dropped afterwards;
    a gap of 5 days keeps only its middle day missing. *)
Theorem interpolate_gaps_long_gap :
  option_map (fun r => (map (option_map Qred) (fst r), snd r))
             (interpolate_gaps [Some 10; None; None; None; Some 50] 2)
  = Some ([Some 10; Some 20; Some 30; Some 40; Some 50], 3%Z) /\
  option_map (fun r => length (dropna (fst r)))
             (interpolate_gaps [Some 10; None; None; None; Some 50] 2)
  = Some 5%nat /\
  option_map (fun r => (map (option_map Qred) (fst r), snd r))
             (interpolate_gaps
                [Some 10; None; None; None; None; None; Some 70] 2)
  = Some ([Some 10; Some 20; Some 30; None; Some 50; Some 60; Some 70], 4%Z).
Proof. vm_compute. repeat split. Qed.

(** * Further properties of the code *)

(** ** The threshold solver, continued *)

Section SolverMore.

Variable sqrt : Q -> Q.

(** The linear branch, once the model is known to grow. *)
Lemma solve_for_threshold_growing (a b c T : Q) (d : Z) :
  Qabs a < EPS -> EPS <= Qabs b -> 0 <= b ->
  solve_for_threshold sqrt (a, b, c) T d
  = days_result (- (c - T) / b - inject_Z d).
Proof.
  intros Ha Hb Hb0. unfold solve_for_threshold.
  apply Qltb_lt in Ha. apply Qltb_ge in Hb, Hb0.
  rewrite Ha, Hb, Hb0. reflexivity.
Qed.

(** A day count returned in the linear branch comes from a growing model. *)
Lemma solve_for_threshold_linear_some (a b c T : Q) (d k : Z) :
  Qabs a < EPS ->
  solve_for_threshold sqrt (a, b, c) T d = Some k ->
  EPS <= b /\ 0 < - (c - T) / b - inject_Z d /\
  k = Qfloor (- (c - T) / b - inject_Z d).
Proof.
  intros Ha Hs.
  destruct (solve_for_threshold_some sqrt _ _ _ _ _ _ Hs) as (x & Hres & Hx).
  destruct Hx as [(_ & Hb & Hb0 & ->) | (Ha' & _)]; [|lra].
  apply days_result_some in Hres. destruct Hres as [Hpos Hk].
  split; [|split; assumption].
  rewrite (Qabs_pos b Hb0) in Hb. exact Hb.
Qed.

Lemma Qdiv_le_mono_pos (x y b : Q) : 0 < b -> x <= y -> x / b <= y / b.
Proof.
  intros Hb Hxy. unfold Qdiv. apply Qmult_le_compat_r; [exact Hxy|].
  apply Qlt_le_weak, Qinv_lt_0_compat, Hb.
Qed.

(** In the linear branch a higher threshold is never reached sooner. *)
Lemma solve_for_threshold_linear_mono (a b c T1 T2 : Q) (d k1 : Z) :
  Qabs a < EPS -> T1 <= T2 ->
  solve_for_threshold sqrt (a, b, c) T1 d = Some k1 ->
  exists k2 : Z,
    solve_for_threshold sqrt (a, b, c) T2 d = Some k2 /\ (k1 <= k2)%Z.
Proof.
  intros Ha HT Hs.
  destruct (solve_for_threshold_linear_some _ _ _ _ _ _ Ha Hs)
    as (Hb & Hpos & Hk).
  assert (Hb0 : 0 < b) by (unfold EPS in Hb; lra).
  assert (Hbabs : EPS <= Qabs b) by (rewrite Qabs_pos; lra).
  assert (Hle : - (c - T1) / b - inject_Z d <= - (c - T2) / b - inject_Z d).
  { assert (- (c - T1) / b <= - (c - T2) / b)
      by (apply Qdiv_le_mono_pos; lra).
    lra. }
  exists (Qfloor (- (c - T2) / b - inject_Z d)). split.
  - rewrite solve_for_threshold_growing by (try assumption; lra).
    rewrite days_result_pos by lra. f_equal. apply py_int_floor. lra.
  - rewrite Hk. apply Qfloor_resp_le. exact Hle.
Qed.

(** X1.  The solver never returns a negative day count. *)
Theorem solve_for_threshold_nonneg (coeffs : Q * Q * Q) (T : Q) (d k : Z) :
  solve_for_threshold sqrt coeffs T d = Some k -> (0 <= k)%Z.
Proof.
  destruct coeffs as [[a b] c]. intro Hs.
  destruct (solve_for_threshold_some sqrt _ _ _ _ _ _ Hs) as (x & Hres & _).
  apply days_result_some in Hres. destruct Hres as [Hpos ->].
  change 0%Z with (Qfloor 0). apply Qfloor_resp_le. lra.
Qed.

(** X2.  Linear case: if a threshold is reached in [k1] days, every higher
    threshold is reached too, and not sooner. *)
Theorem solve_for_threshold_monotone (a b c T1 T2 : Q) (d k1 : Z) :
  Qabs a < EPS -> T1 <= T2 ->
  solve_for_threshold sqrt (a, b, c) T1 d = Some k1 ->
  exists k2 : Z,
    solve_for_threshold sqrt (a, b, c) T2 d = Some k2 /\ (k1 <= k2)%Z.
Proof. exact (solve_for_threshold_linear_mono a b c T1 T2 d k1). Qed.

(** X4.  Linear case, current day not negative: scaling the growth
    coefficients by a factor in (0, 1] (an improving deduplication trend)
    never brings the prediction forward: the adjusted model either predicts
    no crossing or one that is not earlier. *)
Theorem solve_for_threshold_adjustment_delays
        (a b c T adj : Q) (d k : Z) :
  Qabs a < EPS -> 0 < adj -> adj <= 1 -> (0 <= d)%Z ->
  solve_for_threshold sqrt (a, b, c) T d = Some k ->
  match solve_for_threshold sqrt (a * adj, b * adj, c) T d with
  | Some k' => (k <= k')%Z
  | None => True
  end.
Proof.
  intros Ha Hadj Hadj1 Hd Hs.
  destruct (solve_for_threshold_linear_some _ _ _ _ _ _ Ha Hs)
    as (Hb & Hpos & Hk).
  assert (Hb0 : 0 < b) by (unfold EPS in Hb; lra).
  assert (Ha' : Qabs (a * adj) < EPS).
  { rewrite Qabs_Qmult, (Qabs_pos adj) by lra.
    pose proof (Qabs_nonneg a) as Hna.
    assert (0 <= Qabs a * (1 - adj)) by (apply Qmult_le_0_compat; lra).
    lra. }
  destruct (solve_for_threshold sqrt (a * adj, b * adj, c) T d)
    as [k'|] eqn:Hs'; [|exact I].
  destruct (solve_for_threshold_linear_some _ _ _ _ _ _ Ha' Hs')
    as (Hb' & Hpos' & Hk').
  rewrite Hk, Hk'. apply Qfloor_resp_le.
  assert (Hd0 : 0 <= inject_Z d)
    by (change 0 with (inject_Z 0); rewrite <- Zle_Qle; exact Hd).
  set (x := - (c - T) / b) in *.
  assert (Hx' : - (c - T) / (b * adj) == x / adj)
    by (unfold x; field; split; lra).
  rewrite Hx'.
  assert (x <= x / adj).
  { apply Qle_shift_div_l; [exact Hadj|].
    assert (0 <= x * (1 - adj)) by (apply Qmult_le_0_compat; lra). lra. }
  lra.
Qed.

End SolverMore.

Lemma solve_for_threshold_nonneg_witness :
  solve_for_threshold sqrt_floor (1, 0, 0) 16 1 = Some 3%Z /\ (0 <= 3)%Z.
Proof.
  assert (H : solve_for_threshold sqrt_floor (1, 0, 0) 16 1 = Some 3%Z)
    by (vm_compute; reflexivity).
  split; [exact H|].
  exact (solve_for_threshold_nonneg sqrt_floor (1, 0, 0) 16 1 3 H).
Defined.

Lemma solve_for_threshold_monotone_witness :
  solve_for_threshold sqrt_floor (0, 2, 0) 5 0 = Some 2%Z /\
  exists k2 : Z,
    solve_for_threshold sqrt_floor (0, 2, 0) 9 0 = Some k2 /\ (2 <= k2)%Z.
Proof.
  assert (H : solve_for_threshold sqrt_floor (0, 2, 0) 5 0 = Some 2%Z)
    by (vm_compute; reflexivity).
  split; [exact H|].
  apply (solve_for_threshold_monotone sqrt_floor 0 2 0 5 9 0 2);
    [vm_compute; reflexivity | vm_compute; discriminate | exact H].
Defined.

Lemma solve_for_threshold_adjustment_delays_witness :
  solve_for_threshold sqrt_floor (0, 2, 0) 5 0 = Some 2%Z /\
  match solve_for_threshold sqrt_floor (0 * (1 # 2), 2 * (1 # 2), 0) 5 0 with
  | Some k' => (2 <= k')%Z
  | None => True
  end.
Proof.
  assert (H : solve_for_threshold sqrt_floor (0, 2, 0) 5 0 = Some 2%Z)
    by (vm_compute; reflexivity).
  split; [exact H|].
  apply (solve_for_threshold_adjustment_delays sqrt_floor 0 2 0 5 (1 # 2) 0 2);
    [vm_compute; reflexivity | vm_compute; reflexivity
     | vm_compute; discriminate | lia | exact H].
Defined.

(** ** The assembled forecast *)

Section ForecastFacts.

Variable sqrt : Q -> Q.
Variable format_1f : Q -> string.
Variable cfg : Config.

(** The derived fields of a forecast, in terms of its adjusted growth
    coefficients. *)
Lemma assemble_forecast_fields
      (model : FitResult) (adj : Q) (n : nat) (d : Z) (total : Q) :
  let f := assemble_forecast sqrt format_1f cfg model adj n d total in
  let cs := (acceleration f, growth_rate f, snd (coeffs model)) in
  days_to_80 f = solve_for_threshold sqrt cs (total * (80 # 100)) d /\
  days_to_90 f = solve_for_threshold sqrt cs (total * (90 # 100)) d /\
  days_to_100 f = solve_for_threshold sqrt cs (total * 1) d /\
  days_to_80_ci f
    = (ci_bound (days_to_80 f) (9 # 10), ci_bound (days_to_80 f) (11 # 10)) /\
  days_to_100_ci f
    = (ci_bound (days_to_100 f) (9 # 10), ci_bound (days_to_100 f) (11 # 10)) /\
  growth_pattern f
    = classify_growth (model_type model) (growth_rate f) (acceleration f) /\
  priority f = classify_priority cfg (days_to_80 f) /\
  recommendation f
    = generate_recommendation format_1f cfg (growth_pattern f) (growth_rate f)
                              (days_to_80 f) /\
  recommended_capacity_gb f
    = (if truthy (days_to_100 f)
       then Some (total + growth_rate f * 180 * (12 # 10)) else None).
Proof.
  intros f cs. unfold cs, f, assemble_forecast.
  destruct (coeffs model) as [[a0 b0] c0].
  destruct (negb (Qeq_bool adj 1));
    destruct (classify_confidence cfg (r_squared model) n) as [lvl mult];
    cbn; repeat split; reflexivity.
Qed.

Lemma ci_bound_bracket (k : Z) :
  (0 < k)%Z ->
  exists lo hi : Z,
    ci_bound (Some k) (9 # 10) = Some lo /\
    ci_bound (Some k) (11 # 10) = Some hi /\
    (0 <= lo <= k)%Z /\ (k <= hi)%Z.
Proof.
  intro Hk. unfold ci_bound, truthy.
  assert (E : (k =? 0)%Z = false) by (apply Z.eqb_neq; lia).
  rewrite E. cbn [negb].
  assert (Hq : 0 < inject_Z k)
    by (change 0 with (inject_Z 0); rewrite <- Zlt_Qlt; exact Hk).
  exists (py_int (inject_Z k * (9 # 10))), (py_int (inject_Z k * (11 # 10))).
  split; [reflexivity|]. split; [reflexivity|].
  rewrite !py_int_floor by lra.
  rewrite <- (Qfloor_Z k) at 3 4.
  change 0%Z with (Qfloor 0).
  repeat split; apply Qfloor_resp_le; lra.
Qed.

(** X5.  With a linear adjusted model and a capacity that is not negative,
    the three predictions are ordered: when the 80% crossing is predicted,
    so are the 90% and the 100% ones, and
    days_to_80 <= days_to_90 <= days_to_100. *)
Theorem assemble_forecast_days_ordered
        (model : FitResult) (adj : Q) (n : nat) (d : Z) (total : Q) (k80 : Z) :
  let f := assemble_forecast sqrt format_1f cfg model adj n d total in
  Qabs (acceleration f) < EPS ->
  0 <= total ->
  days_to_80 f = Some k80 ->
  exists k90 k100 : Z,
    days_to_90 f = Some k90 /\ days_to_100 f = Some k100 /\
    (k80 <= k90)%Z /\ (k90 <= k100)%Z.
Proof.
  intros f Ha Htot H80.
  destruct (assemble_forecast_fields model adj n d total)
    as (E80 & E90 & E100 & _).
  fold f in E80, E90, E100. rewrite E80 in H80.
  assert (T1 : total * (80 # 100) <= total * (90 # 100)) by lra.
  assert (T2 : total * (90 # 100) <= total * 1) by lra.
  destruct (solve_for_threshold_linear_mono sqrt _ _ _ _ _ _ _ Ha T1 H80)
    as (k90 & H90 & L1).
  destruct (solve_for_threshold_linear_mono sqrt _ _ _ _ _ _ _ Ha T2 H90)
    as (k100 & H100 & L2).
  exists k90, k100. rewrite E90, E100. auto.
Qed.

(** X6.  The 10% band around a prediction: for a day count other than 0
    both bounds exist and bracket it, lower <= days <= upper; for 0 days and
    for no prediction both bounds are None.  The same holds for the 100%
    prediction. *)
Theorem assemble_forecast_ci_bracket
        (model : FitResult) (adj : Q) (n : nat) (d : Z) (total : Q) :
  let f := assemble_forecast sqrt format_1f cfg model adj n d total in
  let bracket := fun (days : option Z) (ci : option Z * option Z) =>
    match days with
    | None => ci = (None, None)
    | Some k =>
        if (k =? 0)%Z then ci = (None, None)
        else exists lo hi : Z,
            ci = (Some lo, Some hi) /\ (0 <= lo <= k)%Z /\ (k <= hi)%Z
    end in
  bracket (days_to_80 f) (days_to_80_ci f) /\
  bracket (days_to_100 f) (days_to_100_ci f).
Proof.
  intros f bracket.
  destruct (assemble_forecast_fields model adj n d total)
    as (E80 & _ & E100 & C80 & C100 & _).
  fold f in E80, E100, C80, C100.
  assert (Hb : forall days,
             (forall k, days = Some k -> (0 <= k)%Z) ->
             bracket days (ci_bound days (9 # 10), ci_bound days (11 # 10))).
  { intros [k|] Hnn; unfold bracket; [|reflexivity].
    destruct (k =? 0)%Z eqn:E.
    - unfold ci_bound, truthy. rewrite E. reflexivity.
    - apply Z.eqb_neq in E. specialize (Hnn k eq_refl).
      destruct (ci_bound_bracket k ltac:(lia)) as (lo & hi & -> & -> & H1 & H2).
      exists lo, hi. auto. }
  rewrite C80, C100. split; apply Hb; intros k Hk.
  - rewrite E80 in Hk.
    destruct (solve_for_threshold_some sqrt _ _ _ _ _ _ Hk) as (x & Hres & _).
    apply days_result_some in Hres. destruct Hres as [Hpos ->].
    change 0%Z with (Qfloor 0). apply Qfloor_resp_le. lra.
  - rewrite E100 in Hk.
    destruct (solve_for_threshold_some sqrt _ _ _ _ _ _ Hk) as (x & Hres & _).
    apply days_result_some in Hres. destruct Hres as [Hpos ->].
    change 0%Z with (Qfloor 0). apply Qfloor_resp_le. lra.
Qed.

Lemma classify_growth_declining (model_type : string) (rate acc : Q) :
  classify_growth model_type rate acc = "DECLINING"%string <-> rate < - (1).
Proof.
  unfold classify_growth. case_Qltb rate (- (1)) E.
  - split; [intros _; exact E | reflexivity].
  - split; [|intro H; exfalso; lra].
    destruct (Qltb (Qabs rate) 1);
      [|destruct (String.eqb model_type "QUADRATIC" && Qltb (1 # 10) acc)];
      intro H; discriminate H.
Qed.

(** X7.  Unless the growth pattern is DECLINING, the recommendation text
    starts with the priority label of the forecast followed by a colon. *)
Theorem assemble_forecast_recommendation_prefix
        (model : FitResult) (adj : Q) (n : nat) (d : Z) (total : Q) :
  let f := assemble_forecast sqrt format_1f cfg model adj n d total in
  growth_pattern f <> "DECLINING"%string ->
  exists rest : string,
    recommendation f = (priority f ++ ": " ++ rest)%string.
Proof.
  intros f Hp.
  destruct (assemble_forecast_fields model adj n d total)
    as (_ & _ & _ & _ & _ & _ & Epr & Erec & _).
  fold f in Epr, Erec. rewrite Erec, Epr.
  unfold generate_recommendation, classify_priority.
  apply String.eqb_neq in Hp. rewrite Hp.
  destruct (days_below (days_to_80 f) (URGENT_THRESHOLD_DAYS cfg));
    [|destruct (days_below (days_to_80 f) (HIGH_THRESHOLD_DAYS cfg));
      [|destruct (days_below (days_to_80 f) (MEDIUM_THRESHOLD_DAYS cfg))]];
    eexists; reflexivity.
Qed.

(** X8.  A capacity is recommended exactly when the 100% crossing is
    predicted in a number of days other than 0; it is the total capacity
    plus 1.2 times 180 days of growth, and with a linear adjusted model it
    exceeds the total capacity. *)
Theorem assemble_forecast_recommended_capacity
        (model : FitResult) (adj : Q) (n : nat) (d : Z) (total : Q) :
  let f := assemble_forecast sqrt format_1f cfg model adj n d total in
  (days_to_100 f = None \/ days_to_100 f = Some 0%Z ->
     recommended_capacity_gb f = None) /\
  (forall k : Z, days_to_100 f = Some k -> k <> 0%Z ->
     recommended_capacity_gb f
       = Some (total + growth_rate f * 180 * (12 # 10)) /\
     (Qabs (acceleration f) < EPS ->
        total < total + growth_rate f * 180 * (12 # 10))).
Proof.
  intros f.
  destruct (assemble_forecast_fields model adj n d total)
    as (_ & _ & E100 & _ & _ & _ & _ & _ & Erc).
  fold f in E100, Erc. split.
  - intros [H | H]; rewrite Erc, H; reflexivity.
  - intros k Hk Hk0. split.
    + rewrite Erc, Hk. unfold truthy.
      apply Z.eqb_neq in Hk0. rewrite Hk0. reflexivity.
    + intro Ha. rewrite E100 in Hk.
      destruct (solve_for_threshold_linear_some sqrt _ _ _ _ _ _ Ha Hk)
        as (Hb & _). unfold EPS in Hb. lra.
Qed.

(** X9.  A forecast whose pattern is DECLINING and whose adjusted model is
    linear predicts no crossing at all: the three day counts are None, the
    priority is LOW, no capacity is recommended and the recommendation is
    the "declining" text. *)
Theorem assemble_forecast_declining
        (model : FitResult) (adj : Q) (n : nat) (d : Z) (total : Q) :
  let f := assemble_forecast sqrt format_1f cfg model adj n d total in
  growth_pattern f = "DECLINING"%string ->
  Qabs (acceleration f) < EPS ->
  days_to_80 f = None /\ days_to_90 f = None /\ days_to_100 f = None /\
  priority f = "LOW"%string /\
  recommended_capacity_gb f = None /\
  recommendation f
    = ("Capacity declining at " ++ format_1f (Qabs (growth_rate f))
         ++ " GB/day. Monitor for stabilization.")%string.
Proof.
  intros f Hp Ha.
  destruct (assemble_forecast_fields model adj n d total)
    as (E80 & E90 & E100 & _ & _ & Egp & Epr & Erec & Erc).
  fold f in E80, E90, E100, Egp, Epr, Erec, Erc.
  assert (Hrate : growth_rate f < - (1)).
  { rewrite Egp in Hp. apply classify_growth_declining in Hp. exact Hp. }
  assert (Hnone : forall T,
             solve_for_threshold sqrt
               (acceleration f, growth_rate f, snd (coeffs model)) T d = None).
  { intro T. apply solve_for_threshold_no_crossing; [exact Ha | right; lra]. }
  rewrite Hnone in E80, E90, E100.
  rewrite Erc, Epr, Erec, E80, E90, E100, Hp.
  repeat split; reflexivity.
Qed.

End ForecastFacts.

Lemma assemble_forecast_days_ordered_witness :
  let model := {| coeffs := (0, 5, 400); model_type := "LINEAR";
                  r_squared := 1; p_value := 1; mse := 0 |} in
  let f := assemble_forecast sqrt_floor format_1f_trunc default_config
                             model 1 60 59 1000 in
  days_to_80 f = Some 21%Z /\
  exists k90 k100 : Z,
    days_to_90 f = Some k90 /\ days_to_100 f = Some k100 /\
    (21 <= k90)%Z /\ (k90 <= k100)%Z.
Proof.
  intros model f.
  assert (H : days_to_80 f = Some 21%Z) by (vm_compute; reflexivity).
  split; [exact H|].
  apply (assemble_forecast_days_ordered sqrt_floor format_1f_trunc
           default_config model 1 60 59 1000 21);
    [vm_compute; reflexivity | vm_compute; discriminate | exact H].
Defined.

Lemma assemble_forecast_recommendation_prefix_witness :
  let model := {| coeffs := (0, 5, 400); model_type := "LINEAR";
                  r_squared := 1; p_value := 1; mse := 0 |} in
  let f := assemble_forecast sqrt_floor format_1f_trunc default_config
                             model 1 60 59 1000 in
  priority f = "HIGH"%string /\
  exists rest : string, recommendation f = (priority f ++ ": " ++ rest)%string.
Proof.
  intros model f. split; [vm_compute; reflexivity|].
  apply (assemble_forecast_recommendation_prefix sqrt_floor format_1f_trunc
           default_config model 1 60 59 1000).
  vm_compute. discriminate.
Defined.

Lemma assemble_forecast_declining_witness :
  let model := {| coeffs := (0, - (5), 900); model_type := "LINEAR";
                  r_squared := 1; p_value := 1; mse := 0 |} in
  let f := assemble_forecast sqrt_floor format_1f_trunc default_config
                             model 1 60 59 1000 in
  growth_pattern f = "DECLINING"%string /\
  days_to_80 f = None /\ priority f = "LOW"%string /\
  recommendation f
    = "Capacity declining at 5.0 GB/day. Monitor for stabilization."%string.
Proof.
  intros model f.
  assert (H : growth_pattern f = "DECLINING"%string) by (vm_compute; reflexivity).
  split; [exact H|].
  destruct (assemble_forecast_declining sqrt_floor format_1f_trunc
              default_config model 1 60 59 1000 H)
    as (H80 & _ & _ & Hp & _ & Hr); [vm_compute; reflexivity|].
  split; [exact H80|]. split; [exact Hp|].
  etransitivity; [exact Hr | vm_compute; reflexivity].
Defined.

(** ** Outlier removal, continued *)

Lemma mask_select_negb_length {A : Type} (data : list A) (m : list bool) :
  length data = length m ->
  (length (mask_select data (map negb m)) + count_true m = length data)%nat.
Proof.
  revert m. induction data as [|a data IH]; intros [|b m] Hlen;
    try discriminate; [reflexivity|].
  injection Hlen as Hlen. specialize (IH m Hlen).
  cbn [map]. rewrite mask_select_cons. unfold count_true in *.
  destruct b; simpl; lia.
Qed.

Lemma mask_select_negb_Forall (f : Q -> bool) (data : list Q) :
  Forall (fun v => f v = false) (mask_select data (map negb (map f data))).
Proof.
  induction data as [|v data IH]; [constructor|].
  cbn [map]. rewrite mask_select_cons.
  destruct (f v) eqn:E; simpl; [exact IH | constructor; assumption].
Qed.

Lemma count_true_zero_Forall (f : Q -> bool) (data : list Q) :
  count_true (map f data) = 0%nat -> Forall (fun v => f v = false) data.
Proof.
  unfold count_true. induction data as [|v data IH]; [constructor|].
  simpl. destruct (f v) eqn:E; [discriminate|].
  intro H. constructor; [exact E | apply IH, H].
Qed.

Lemma Qsum_outliers_bound (f : Q -> bool) (g : Q -> Q) (B : Q) (l : list Q) :
  (forall v, 0 <= g v) ->
  (forall v, f v = true -> B < g v) ->
  inject_Z (Z.of_nat (count_true (map f l))) * B <= Qsum (map g l) /\
  ((0 < count_true (map f l))%nat ->
   inject_Z (Z.of_nat (count_true (map f l))) * B < Qsum (map g l)).
Proof.
  intros Hg Hf. unfold count_true.
  induction l as [|v l [IH1 IH2]].
  - split; [change (0 * B <= 0); lra | simpl; lia].
  - cbn [map filter Qsum fold_right]. fold (Qsum (map g l)).
    pose proof (Hg v) as Hgv.
    destruct (f v) eqn:E.
    + cbn [length]. rewrite Nat2Z.inj_succ, <- Z.add_1_r, inject_Z_plus.
      pose proof (Hf v E) as Hlt. change (inject_Z 1) with 1.
      split; [|intros _]; lra.
    + split; [lra | intro Hpos; specialize (IH2 Hpos); lra].
Qed.

Lemma Qsquare_nonneg (x : Q) : 0 <= x ^ 2.
Proof.
  assert (H0 : x ^ 2 == x * x) by (simpl; ring). rewrite H0.
  destruct (Qlt_le_dec x 0) as [H | H].
  - assert (0 <= (- x) * (- x)) by (apply Qmult_le_0_compat; lra). lra.
  - apply Qmult_le_0_compat; assumption.
Qed.

Lemma Qsquare_lt_abs (x y : Q) : 0 <= y -> y < Qabs x -> y * y < x ^ 2.
Proof.
  intros Hy Hlt.
  assert (Hx : x ^ 2 == Qabs x * Qabs x).
  { apply Qabs_case; intros _; simpl; ring. }
  rewrite Hx.
  apply Qle_lt_trans with (y * Qabs x).
  - assert (0 <= y * (Qabs x - y)) by (apply Qmult_le_0_compat; lra). lra.
  - assert (0 < (Qabs x - y) * Qabs x)
      by (apply Qmult_lt_0_compat; lra). lra.
Qed.

Section OutlierMore.

Variable sqrt : Q -> Q.

Lemma remove_outliers_guards (data : list Q) (threshold : Q) :
  (0 < snd (remove_outliers sqrt data threshold))%nat ->
  (3 <= length data)%nat /\ ~ std sqrt data == 0.
Proof.
  unfold remove_outliers.
  destruct (length data <? 3)%nat eqn:El; [simpl; lia|].
  destruct (Qeq_bool (std sqrt data) 0) eqn:Es; [simpl; lia|].
  intros _. split; [apply Nat.ltb_ge, El | apply Qeq_bool_neq, Es].
Qed.

(** X10.  remove_outliers accounts for every sample: the cleaned array and
    the count of outliers add up to the input length, and a count of 0
    means that the input is returned as it is. *)
Theorem remove_outliers_accounting (data : list Q) (threshold : Q) :
  let r := remove_outliers sqrt data threshold in
  (length (fst r) + snd r = length data)%nat /\
  (snd r = 0%nat -> fst r = data).
Proof.
  unfold remove_outliers.
  destruct (length data <? 3)%nat; [simpl; split; [lia | reflexivity]|].
  destruct (Qeq_bool (std sqrt data) 0); [simpl; split; [lia | reflexivity]|].
  destruct (0 <? count_true (outliers_mask sqrt data threshold))%nat eqn:E;
    cbn [fst snd]; [|split; [lia | reflexivity]].
  apply Nat.ltb_lt in E. split; [|lia].
  apply mask_select_negb_length. unfold outliers_mask.
  rewrite length_map. reflexivity.
Qed.

(** X11.  With at least 3 samples and a standard deviation other than 0,
    every sample that remove_outliers keeps lies within threshold standard
    deviations of the mean, both taken over the input (the statistics are
    not recomputed after the removal). *)
Theorem remove_outliers_within_band (data : list Q) (threshold : Q) :
  (3 <= length data)%nat ->
  ~ std sqrt data == 0 ->
  Forall (fun v => Qabs (v - mean data) <= threshold * std sqrt data)
         (fst (remove_outliers sqrt data threshold)).
Proof.
  intros Hlen Hstd. unfold remove_outliers.
  apply Nat.ltb_ge in Hlen. rewrite Hlen.
  destruct (Qeq_bool (std sqrt data) 0) eqn:Es;
    [apply Qeq_bool_iff in Es; contradiction|].
  set (f := fun v => Qltb (threshold * std sqrt data) (Qabs (v - mean data))).
  assert (Himp : forall l, Forall (fun v => f v = false) l ->
             Forall (fun v => Qabs (v - mean data) <= threshold * std sqrt data) l).
  { intros l. apply Forall_impl. intros v Hv. apply Qltb_ge, Hv. }
  change (outliers_mask sqrt data threshold) with (map f data).
  destruct (0 <? count_true (map f data))%nat eqn:E; cbn [fst]; apply Himp.
  - apply mask_select_negb_Forall.
  - apply count_true_zero_Forall. apply Nat.ltb_ge in E. lia.
Qed.

(** X12.  Chebyshev bound on the removal.  When the square root is exact
    at the variance and the threshold is not negative, the number of removed
    outliers times threshold^2 is below the number of samples: with the
    default threshold 3, fewer than one sample in nine is removed, and the
    cleaned array is never empty for a threshold of at least 1. *)
Theorem remove_outliers_chebyshev (data : list Q) (threshold : Q) :
  0 <= threshold ->
  0 <= std sqrt data ->
  std sqrt data * std sqrt data
    == mean (map (fun v => (v - mean data) ^ 2) data) ->
  let removed := snd (remove_outliers sqrt data threshold) in
  (0 < removed)%nat ->
  inject_Z (Z.of_nat removed) * threshold ^ 2
    < inject_Z (Z.of_nat (length data)).
Proof.
  intros Ht Hs0 Hvar removed Hpos.
  destruct (remove_outliers_guards data threshold Hpos) as [Hlen Hstd].
  pose proof (remove_outliers_removed sqrt data threshold Hpos) as Hr.
  assert (Hrem : removed = count_true (outliers_mask sqrt data threshold))
    by (unfold removed; rewrite Hr; reflexivity).
  set (s := std sqrt data) in *. set (m := mean data) in *.
  set (f := fun v => Qltb (threshold * s) (Qabs (v - m))).
  set (g := fun v : Q => (v - m) ^ 2).
  assert (Hb : inject_Z (Z.of_nat (count_true (map f data)))
               * (threshold * s * (threshold * s)) < Qsum (map g data)).
  { apply Qsum_outliers_bound.
    - intro v. unfold g. apply Qsquare_nonneg.
    - intros v Hv. unfold f in Hv. apply Qltb_lt in Hv. unfold g.
      apply Qsquare_lt_abs; [apply Qmult_le_0_compat; assumption | exact Hv].
    - change (map f data) with (outliers_mask sqrt data threshold).
      rewrite <- Hrem. exact Hpos. }
  change (map f data) with (outliers_mask sqrt data threshold) in Hb.
  rewrite <- Hrem in Hb.
  set (n := inject_Z (Z.of_nat (length data))).
  assert (Hn : 0 < n).
  { unfold n. change 0 with (inject_Z 0). rewrite <- Zlt_Qlt. lia. }
  assert (Hsum : Qsum (map g data) == n * (s * s)).
  { rewrite Hvar. unfold mean. rewrite length_map. fold n. fold g.
    field. lra. }
  rewrite Hsum in Hb.
  assert (Hss : 0 < s * s).
  { apply Qmult_lt_0_compat; destruct (Qle_lt_or_eq _ _ Hs0) as [H | H];
      try exact H; exfalso; apply Hstd; symmetry; exact H. }
  apply (Qmult_lt_r _ _ (s * s) Hss).
  assert (E : inject_Z (Z.of_nat removed) * threshold ^ 2 * (s * s)
              == inject_Z (Z.of_nat removed)
                 * (threshold * s * (threshold * s)))
    by (simpl; ring).
  rewrite E. exact Hb.
Qed.

End OutlierMore.

Lemma remove_outliers_within_band_witness :
  let data := [0; 0; 0; 0; 0; 0; 1; 3] in
  fst (remove_outliers sqrt_floor data 2) = [0; 0; 0; 0; 0; 0; 1] /\
  Forall (fun v => Qabs (v - mean data) <= 2 * std sqrt_floor data)
         (fst (remove_outliers sqrt_floor data 2)).
Proof.
  intro data. split; [vm_compute; reflexivity|].
  apply (remove_outliers_within_band sqrt_floor data 2).
  - simpl. lia.
  - vm_compute. discriminate.
Defined.

Lemma remove_outliers_chebyshev_witness :
  let data := [0; 0; 0; 0; 0; 0; 1; 3] in
  snd (remove_outliers sqrt_floor data 2) = 1%nat /\
  inject_Z (Z.of_nat (snd (remove_outliers sqrt_floor data 2))) * 2 ^ 2
    < inject_Z (Z.of_nat (length data)).
Proof.
  intro data. split; [vm_compute; reflexivity|].
  apply (remove_outliers_chebyshev sqrt_floor data 2).
  - vm_compute. discriminate.
  - vm_compute. discriminate.
  - vm_compute. reflexivity.
  - vm_compute. lia.
Defined.

(** ** Fit quality *)

Section FitQuality.

Variable sqrt : Q -> Q.
Variable t_sf : Q -> Z -> Q.
Variable polyfit1 : list Q -> list Q -> option (Q * Q).
Variable polyfit2 : list Q -> list Q -> option Vec3.
Variable cfg : Config.

(** The r_squared of a fit, once both polyfit calls have returned. *)
Lemma fit_model_r_squared (x y : list Q) (r : FitResult) :
  fit_model sqrt t_sf polyfit1 polyfit2 cfg x y = Some r ->
  let ss_tot := Qsum (map (fun v => (v - mean y) ^ 2) y) in
  r_squared r
  = if Qltb 0 ss_tot
    then 1 - sum_sq_residuals (coeffs r) x y / ss_tot
    else 0.
Proof.
  unfold fit_model.
  destruct (polyfit1 x y) as [lin|]; [|discriminate].
  destruct (polyfit2 x y) as [cq|]; [|discriminate].
  destruct (Qltb (quad_p_value sqrt t_sf cq x y) (P_VALUE_THRESHOLD cfg));
    intros [= <-]; reflexivity.
Qed.

(** X16.  Whatever the data, the r_squared that fit_model reports is at
    most 1. *)
Theorem fit_model_r_squared_le_1 (x y : list Q) (r : FitResult) :
  fit_model sqrt t_sf polyfit1 polyfit2 cfg x y = Some r ->
  r_squared r <= 1.
Proof.
  intro H. rewrite (fit_model_r_squared x y r H).
  case_Qltb 0 (Qsum (map (fun v => (v - mean y) ^ 2) y)) E; [|lra].
  assert (Hres : 0 <= sum_sq_residuals (coeffs r) x y).
  { unfold sum_sq_residuals.
    induction (combine x y) as [|p l IH]; [apply Qle_refl|].
    cbn [map Qsum fold_right].
    pose proof (Qsquare_nonneg (snd p - polyval (coeffs r) (fst p))).
    unfold Qsum in IH. lra. }
  assert (0 <= sum_sq_residuals (coeffs r) x y
               / Qsum (map (fun v => (v - mean y) ^ 2) y)).
  { apply Qle_shift_div_l; [exact E | lra]. }
  lra.
Qed.

End FitQuality.

Lemma fit_model_r_squared_le_1_witness :
  exists r : FitResult,
    fit_model sqrt_floor t_sf_sample polyfit1_lstsq polyfit2_lstsq
              default_config [0; 1; 2; 3; 4; 5; 6] [0; 1; 4; 9; 16; 25; 37]
    = Some r /\
    r_squared r <= 1.
Proof.
  destruct (fit_model sqrt_floor t_sf_sample polyfit1_lstsq polyfit2_lstsq
              default_config [0; 1; 2; 3; 4; 5; 6] [0; 1; 4; 9; 16; 25; 37])
    as [r|] eqn:E; [|vm_compute in E; discriminate].
  exists r. split; [reflexivity|].
  exact (fit_model_r_squared_le_1 _ _ _ _ _ _ _ _ E).
Defined.

(** ** Capacity snapshot *)

(** X19.  The utilization percentage of a forecast never divides by zero
    and stays within [0, 100] whenever 0 <= used <= total; a total capacity
    of 0 (or below) gives 0. *)
Theorem current_utilization_pct_bounds (total used : Q) :
  0 <= used -> used <= total ->
  0 <= current_utilization_pct total used <= 100 /\
  (total == 0 -> current_utilization_pct total used = 0).
Proof.
  intros Hu Ht. unfold current_utilization_pct.
  case_Qltb 0 total E.
  - assert (L : 0 <= used / total) by (apply Qle_shift_div_l; lra).
    assert (U : used / total <= 1) by (apply Qle_shift_div_r; lra).
    split; [split; lra | intro Hz; lra].
  - split; [split; lra | reflexivity].
Qed.

Lemma current_utilization_pct_bounds_witness :
  0 <= current_utilization_pct 1000 700 <= 100.
Proof.
  apply (current_utilization_pct_bounds 1000 700);
    vm_compute; discriminate.
Defined.

Lemma gb_to_bytes_spec (gb : Q) :
  0 <= gb ->
  (0 <= gb_to_bytes gb)%Z /\
  inject_Z (gb_to_bytes gb) <= gb * inject_Z (1024 ^ 3) /\
  gb * inject_Z (1024 ^ 3) < inject_Z (gb_to_bytes gb + 1).
Proof.
  intro H. unfold gb_to_bytes.
  assert (Hg : 0 < inject_Z (1024 ^ 3)) by reflexivity.
  assert (Hp : 0 <= gb * inject_Z (1024 ^ 3))
    by (apply Qmult_le_0_compat; lra).
  rewrite py_int_floor by exact Hp.
  split; [change 0%Z with (Qfloor 0); apply Qfloor_resp_le, Hp|].
  split; [apply Qfloor_le | apply Qlt_floor].
Qed.

Lemma gb_to_bytes_mono (g1 g2 : Q) :
  0 <= g1 -> g1 <= g2 -> (gb_to_bytes g1 <= gb_to_bytes g2)%Z.
Proof.
  intros H1 H2. unfold gb_to_bytes.
  assert (Hg : 0 < inject_Z (1024 ^ 3)) by reflexivity.
  assert (Hp1 : 0 <= g1 * inject_Z (1024 ^ 3))
    by (apply Qmult_le_0_compat; lra).
  assert (Hle : g1 * inject_Z (1024 ^ 3) <= g2 * inject_Z (1024 ^ 3))
    by (apply Qmult_le_compat_r; lra).
  rewrite !py_int_floor by lra. apply Qfloor_resp_le, Hle.
Qed.

(** X20.  The row that save_current_measurement stores: an absent
    capacityGB key gives 0 bytes and utilization 0 (no division by zero);
    with 0 <= used <= capacity the stored bytes keep that order, each
    conversion loses less than one byte, and the stored utilization is
    within [0, 100]. *)
Theorem measurement_row_bounds (repo : RepoState) :
  let '(total_bytes, used_bytes, _, utilization) := measurement_row repo in
  (capacityGB repo = None -> total_bytes = 0%Z /\ utilization = 0) /\
  (0 <= get_or_zero (usedSpaceGB repo) ->
   get_or_zero (usedSpaceGB repo) <= get_or_zero (capacityGB repo) ->
   (0 <= used_bytes <= total_bytes)%Z /\
   inject_Z used_bytes
     <= get_or_zero (usedSpaceGB repo) * inject_Z (1024 ^ 3) /\
   get_or_zero (usedSpaceGB repo) * inject_Z (1024 ^ 3)
     < inject_Z (used_bytes + 1) /\
   0 <= utilization <= 100).
Proof.
  unfold measurement_row. split.
  - intros ->. split; reflexivity.
  - intros Hu Hc.
    set (u := get_or_zero (usedSpaceGB repo)) in *.
    set (c := get_or_zero (capacityGB repo)) in *.
    destruct (gb_to_bytes_spec u Hu) as (U0 & U1 & U2).
    pose proof (gb_to_bytes_mono u c Hu Hc) as Hm.
    split; [lia|]. split; [exact U1|]. split; [exact U2|].
    destruct (0 <? gb_to_bytes c)%Z eqn:E; [|split; lra].
    apply Z.ltb_lt in E.
    assert (Hc0 : 0 < inject_Z (gb_to_bytes c))
      by (change 0 with (inject_Z 0); rewrite <- Zlt_Qlt; exact E).
    assert (Hu0 : 0 <= inject_Z (gb_to_bytes u))
      by (change 0 with (inject_Z 0); rewrite <- Zle_Qle; exact U0).
    assert (Hle : inject_Z (gb_to_bytes u) <= inject_Z (gb_to_bytes c))
      by (rewrite <- Zle_Qle; exact Hm).
    assert (L : 0 <= inject_Z (gb_to_bytes u) / inject_Z (gb_to_bytes c))
      by (apply Qle_shift_div_l; lra).
    assert (U : inject_Z (gb_to_bytes u) / inject_Z (gb_to_bytes c) <= 1)
      by (apply Qle_shift_div_r; lra).
    split; lra.
Qed.

(** ** Readers of the forecast *)

(** X21.  feature5's capacity risk score never rises with the day count:
    more days to 80% give a score that is not higher, and a forecast without
    crossing scores like one 365 days away.  The score of a forecast row is
    one of 100, 70, 40, 10. *)
Theorem capacity_base_score_monotone (k1 k2 t_days : Z) :
  (k1 <= k2)%Z ->
  (capacity_base_score (Some (Some k2)) t_days
   <= capacity_base_score (Some (Some k1)) t_days)%Z /\
  capacity_base_score (Some None) t_days
  = capacity_base_score (Some (Some 365%Z)) t_days /\
  In (capacity_base_score (Some (Some k1)) t_days) [100; 70; 40; 10]%Z.
Proof.
  intro H. unfold capacity_base_score.
  split; [|split; [reflexivity|]].
  - destruct (k2 <=? 30)%Z eqn:A2, (k1 <=? 30)%Z eqn:A1,
             (k2 <=? t_days)%Z eqn:B2, (k1 <=? t_days)%Z eqn:B1,
             (k2 <=? 120)%Z eqn:C2, (k1 <=? 120)%Z eqn:C1;
      try lia;
      repeat match goal with
             | E : (_ <=? _)%Z = true |- _ => apply Z.leb_le in E
             | E : (_ <=? _)%Z = false |- _ => apply Z.leb_gt in E
             end; lia.
  - destruct (k1 <=? 30)%Z, (k1 <=? t_days)%Z, (k1 <=? 120)%Z; simpl; auto.
Qed.

Lemma capacity_base_score_monotone_witness :
  (capacity_base_score (Some (Some 45%Z)) 60
   <= capacity_base_score (Some (Some 20%Z)) 60)%Z.
Proof.
  destruct (capacity_base_score_monotone 20 45 60) as [H _]; [lia | exact H].
Defined.

(** X22.  feature5's exceeds_threshold flag: for a day count other than 0
    it is set exactly when the count is below the threshold; a count of 0
    is read like a missing prediction (365 days).  Whenever the flag is set
    the capacity risk score is at least 70. *)
Theorem capacity_exceeds_threshold_spec (t_days : Z) :
  (forall k : Z, k <> 0%Z ->
     (capacity_exceeds_threshold (Some (Some k)) t_days = true
      <-> (k < t_days)%Z)) /\
  capacity_exceeds_threshold (Some (Some 0%Z)) t_days
  = capacity_exceeds_threshold (Some None) t_days /\
  (capacity_exceeds_threshold (Some None) t_days = true
   <-> (365 < t_days)%Z) /\
  (forall f2 : option (option Z),
     capacity_exceeds_threshold f2 t_days = true ->
     (70 <= capacity_base_score f2 t_days)%Z).
Proof.
  split; [|split; [reflexivity | split]].
  - intros k Hk. unfold capacity_exceeds_threshold, truthy.
    apply Z.eqb_neq in Hk. rewrite Hk. cbn [negb]. apply Z.ltb_lt.
  - unfold capacity_exceeds_threshold, truthy. apply Z.ltb_lt.
  - intros [[k|]|]; unfold capacity_exceeds_threshold, capacity_base_score,
      truthy; [| |discriminate].
    + destruct (k =? 0)%Z eqn:E; cbn [negb]; intro H; apply Z.ltb_lt in H.
      * apply Z.eqb_eq in E. subst k. simpl. lia.
      * destruct (k <=? 30)%Z eqn:A; [lia|].
        assert (B : (k <=? t_days)%Z = true) by (apply Z.leb_le; lia).
        rewrite B. lia.
    + intro H. cbv iota in H. apply Z.ltb_lt in H.
      change (365 <=? 30)%Z with false. cbv iota.
      assert (B : (365 <=? t_days)%Z = true) by (apply Z.leb_le; lia).
      rewrite B. lia.
Qed.


